(** * WeatherService: the query-and-aggregation core

    A shallow embedding of the two route handlers of [src/server/index.js]
    ([GET /api/measurements] and [GET /api/measurements/metrics]), of the
    earlier metrics handler that reduces the raw values locally with
    [calculateStdDev], and of the primitives they rely on: the JavaScript
    [Date] arithmetic, [Math.round], and the find / aggregate operations of
    the document store.

    Numbers are modelled as exact reals: the rounding error of IEEE double
    arithmetic is not part of this model.  Instants are time values in
    milliseconds since the epoch. *)

From Stdlib Require Import ZArith List String Ascii Bool Lia.
From Stdlib Require Import Reals Lra Psatz.
From Stdlib Require Import Sorting Permutation.
Import ListNotations.

Local Open Scope string_scope.
Local Open Scope Z_scope.

(** ** The language primitives used by the handlers *)

Module JS.

(** A query-string parameter as destructured from [req.query]:
    [None] is [undefined], [Some s] a string (repeated and nested
    parameters, which parse to arrays and objects, are left out). *)
Definition Param := option string.

(** Truthiness of a parameter, as tested by [if (x)] and [!x]:
    [undefined] and the empty string are falsy. *)
Definition truthy (p : Param) : bool :=
  match p with
  | None => false
  | Some EmptyString => false
  | Some (String _ _) => true
  end.

(** [Array.prototype.includes] on an array of strings. *)
Fixpoint includes (xs : list string) (x : string) : bool :=
  match xs with
  | [] => false
  | y :: ys => if String.eqb y x then true else includes ys x
  end.

(** [Array.prototype.join]. *)
Fixpoint join (xs : list string) (sep : string) : string :=
  match xs with
  | [] => EmptyString
  | [x] => x
  | x :: ys => x ++ sep ++ join ys sep
  end.

(** *** Anchored patterns made of digits and literal characters *)

Inductive atom : Set :=
| Digit                (* \d *)
| Lit (c : ascii).     (* a literal character *)

Definition is_digit (c : ascii) : bool :=
  let n := N_of_ascii c in ((48 <=? n) && (n <=? 57))%N.

Definition atom_matches (a : atom) (c : ascii) : bool :=
  match a with
  | Digit => is_digit c
  | Lit l => Ascii.eqb l c
  end.

(** [/^a1 a2 ... an$/.test(s)]: the whole string, atom by atom. *)
Fixpoint regex_test (p : list atom) (s : string) : bool :=
  match p, s with
  | [], EmptyString => true
  | a :: p', String c s' => atom_matches a c && regex_test p' s'
  | _, _ => false
  end.

(** *** Time values (ECMAScript, Date objects) *)

Definition msPerDay : Z := 86400000.

Definition Day (t : Z) : Z := t / msPerDay.

Definition DaysInYear (y : Z) : Z :=
  if negb (y mod 4 =? 0) then 365
  else if negb (y mod 100 =? 0) then 366
  else if negb (y mod 400 =? 0) then 365
  else 366.

Definition DayFromYear (y : Z) : Z :=
  365 * (y - 1970) + (y - 1969) / 4 - (y - 1901) / 100 + (y - 1601) / 400.

(** Day within the year on which month [mn] (0-based) starts. *)
Definition MonthStart (leap : Z) (mn : Z) : Z :=
  match mn with
  | 0 => 0
  | 1 => 31
  | 2 => 59 + leap
  | 3 => 90 + leap
  | 4 => 120 + leap
  | 5 => 151 + leap
  | 6 => 181 + leap
  | 7 => 212 + leap
  | 8 => 243 + leap
  | 9 => 273 + leap
  | 10 => 304 + leap
  | _ => 334 + leap
  end.

(** [MakeDay(year, month, date)]: the day number of the first of the
    month plus [date - 1]; a [date] past the end of the month runs over
    into the following one. *)
Definition MakeDay (year month date : Z) : Z :=
  let ym := year + month / 12 in
  let mn := month mod 12 in
  DayFromYear ym + MonthStart (DaysInYear ym - 365) mn + date - 1.

Definition MakeTime (hour min sec ms : Z) : Z :=
  hour * 3600000 + min * 60000 + sec * 1000 + ms.

Definition MakeDate (day time : Z) : Z := day * msPerDay + time.

(** A [Date] object: [None] is the invalid date (time value NaN). *)
Definition Date := option Z.

Definition digit_value (c : ascii) : Z := Z.of_N (N_of_ascii c) - 48.

Fixpoint digits_value (acc : Z) (s : string) : Z :=
  match s with
  | EmptyString => acc
  | String c s' => digits_value (10 * acc + digit_value c) s'
  end.

(** The date-only ISO form, the only form that reaches the constructor
    in this program (every call is guarded by [isValidDate]). *)
Definition iso_date_only : list atom :=
  [Digit; Digit; Digit; Digit; Lit "-"; Digit; Digit; Lit "-"; Digit; Digit].

(** [new Date(s)] for a date-only string: midnight UTC of that date.  The
    engine (V8) accepts months 01..12 and days 01..31 and rejects
    everything else; other string forms are not modelled. *)
Definition new_Date (s : string) : Date :=
  if regex_test iso_date_only s then
    let y := digits_value 0 (substring 0 4 s) in
    let m := digits_value 0 (substring 5 2 s) in
    let d := digits_value 0 (substring 8 2 s) in
    if (1 <=? m) && (m <=? 12) && (1 <=? d) && (d <=? 31)
    then Some (MakeDate (MakeDay y (m - 1) d) 0)
    else None
  else None.

(** [isNaN(date)] on a Date object. *)
Definition isNaN_Date (d : Date) : bool :=
  match d with None => true | Some _ => false end.

(** [Date.prototype.setHours(hour, min, sec, ms)] on a valid date, in a
    process whose local time zone adjustment is [localTZA] milliseconds
    (local time = UTC + [localTZA]; taken constant over the day). *)
Definition setHours (localTZA : Z) (tv : Z) (hour min sec ms : Z) : Z :=
  let t := tv + localTZA in                               (* LocalTime(tv) *)
  let date := MakeDate (Day t) (MakeTime hour min sec ms) in
  date - localTZA.                                        (* UTC(date) *)

(** *** Numbers *)

(** A number that may be [null]. *)
Definition Nullable := option R.

(** ToNumber on a nullable number: [null] converts to [0]. *)
Definition ToNumber (x : Nullable) : R :=
  match x with Some v => v | None => 0%R end.

(** [Math.round(x)]: the closest integer, ties towards positive
    infinity. *)
Definition Math_round (x : R) : R := IZR (Zfloor (x + / 2)).

(** [x || 0]: [0] when [x] is [null] or [0], else [x]. *)
Definition or_zero (x : Nullable) : R :=
  match x with
  | None => 0%R
  | Some v => if Req_dec_T v 0%R then 0%R else v
  end.

End JS.

(** ** Data model: [measurementSchema] *)

Record Measurement : Type := {
  timestamp : Z;        (* Date, as a time value *)
  temperature : R;
  humidity : R;
  pressure : R
}.

(** ** The document store: the operations the handlers delegate to *)

Module Store.

Import JS.

(** The operand of a condition on [timestamp]: an object that may carry
    the keys [$gte] and [$lte].  A key that was never assigned is
    [None]. *)
Record DateFilter : Set := { gte : option Z; lte : option Z }.

(** A filter document: [{}] or [{ timestamp: dateFilter }]. *)
Definition Filter := option DateFilter.

Definition in_range (f : DateFilter) (ts : Z) : bool :=
  match gte f with Some lo => lo <=? ts | None => true end
  && match lte f with Some hi => ts <=? hi | None => true end.

Definition matches (q : Filter) (m : Measurement) : bool :=
  match q with
  | None => true
  | Some f => in_range f (timestamp m)
  end.

(** [.sort({ timestamp: 1 })]: ascending by timestamp. *)
Fixpoint insert (m : Measurement) (l : list Measurement) : list Measurement :=
  match l with
  | [] => [m]
  | x :: l' =>
      if timestamp m <=? timestamp x then m :: l else x :: insert m l'
  end.

Fixpoint sort (l : list Measurement) : list Measurement :=
  match l with
  | [] => []
  | m :: l' => insert m (sort l')
  end.

(** [Measurement.find(query).sort({ timestamp: 1 }).lean()]. *)
Definition find (docs : list Measurement) (query : Filter) : list Measurement :=
  sort (filter (matches query) docs).

(** The value at a field path ["$key"] of a document, when it is a
    number; [m[key]] on the lean document reads the same property. *)
Definition prop (key : string) (m : Measurement) : Nullable :=
  if String.eqb key "temperature" then Some (temperature m)
  else if String.eqb key "humidity" then Some (humidity m)
  else if String.eqb key "pressure" then Some (pressure m)
  else None.

(** The numeric values a group accumulator sees: documents where the
    path is not a number are skipped. *)
Fixpoint numbers (key : string) (l : list Measurement) : list R :=
  match l with
  | [] => []
  | m :: l' =>
      match prop key m with
      | Some v => v :: numbers key l'
      | None => numbers key l'
      end
  end.

(** *** Group accumulators *)

Definition sum (vs : list R) : R := fold_left Rplus vs 0%R.

(** [$avg]: sum over count, [null] when there is no number. *)
Definition acc_avg (vs : list R) : Nullable :=
  match vs with
  | [] => None
  | _ => Some (sum vs / INR (List.length vs))%R
  end.

Definition acc_min (vs : list R) : Nullable :=
  match vs with
  | [] => None
  | v :: vs' => Some (fold_left Rmin vs' v)
  end.

Definition acc_max (vs : list R) : Nullable :=
  match vs with
  | [] => None
  | v :: vs' => Some (fold_left Rmax vs' v)
  end.

(** [$stdDevPop]: one pass over the values keeping the running count,
    mean and sum of squared deviations; [null] when there is no
    number. *)
Record Running : Type := { seen : nat; mean : R; m2 : R }.

Definition running_step (st : Running) (x : R) : Running :=
  let n := S (seen st) in
  let delta := (x - mean st)%R in
  let mean' := (mean st + delta / INR n)%R in
  {| seen := n; mean := mean'; m2 := (m2 st + delta * (x - mean'))%R |}.

Definition running (vs : list R) : Running :=
  fold_left running_step vs {| seen := 0; mean := 0%R; m2 := 0%R |}.

Definition acc_stdDevPop (vs : list R) : Nullable :=
  let st := running vs in
  match seen st with
  | O => None
  | S _ => Some (sqrt (m2 st / INR (seen st)))
  end.

(** The extra accumulator of the [$group] stage, besides [$avg], [$min],
    [$max] and [count: { $sum: 1 }]. *)
Inductive Extra : Set :=
| StdDevPop      (* stdDev: { $stdDevPop: "$field" } *)
| Push.          (* values: { $push: "$field" } *)

Record GroupStage : Set := { path : string; extra : Extra }.

(** The document a [$group] stage with [_id: null] produces. *)
Record Group : Type := {
  avg : Nullable;
  min : Nullable;
  max : Nullable;
  stdDev : Nullable;     (* undefined unless requested *)
  values : list R;       (* undefined unless requested *)
  count : nat
}.

Definition group (g : GroupStage) (l : list Measurement) : Group :=
  let vs := numbers (path g) l in
  {| avg := acc_avg vs;
     min := acc_min vs;
     max := acc_max vs;
     stdDev := match extra g with StdDevPop => acc_stdDevPop vs | Push => None end;
     values := match extra g with StdDevPop => [] | Push => vs end;
     count := List.length l |}.

(** [Measurement.aggregate([{ $match }, { $group: { _id: null, ... } }])]:
    no group at all when nothing matches, one group otherwise. *)
Definition aggregate (docs : list Measurement) (matchStage : Filter)
    (g : GroupStage) : list Group :=
  match filter (matches matchStage) docs with
  | [] => []
  | l => [group g l]
  end.

(** The collection as the server sees it: its documents, and whether
    the connection answers at all (a call on an unreachable store
    rejects). *)
Record State : Type := { documents : list Measurement; reachable : bool }.

Inductive Call : Set :=
| Find (query : Filter)
| Aggregate (matchStage : Filter) (g : GroupStage).

End Store.

(** ** Requests, responses and handler runs *)

(** [req.query], destructured as [{ field, start_date, end_date }]. *)
Record ReqQuery : Set := {
  field : JS.Param;
  start_date : JS.Param;
  end_date : JS.Param
}.

(** The object [{ timestamp: m.timestamp, [field]: m[field] }]. *)
Record ProjectedRow : Type := {
  row_timestamp : Z;
  row_key : string;
  row_value : JS.Nullable
}.

(** The JSON bodies the handlers send. *)
Inductive Json : Type :=
| ErrorBody (error message : string)
| Measurements (rows : list Measurement)
| Projection (rows : list ProjectedRow)
| MetricsBody (field : string) (count : nat) (avg min max stdDev : R).

Record Response : Type := { status : Z; body : Json }.

(** [res.status(code).json({ error, message })] and [res.json(body)]. *)
Definition fail (code : Z) (error message : string) : Response :=
  {| status := code; body := ErrorBody error message |}.

Definition json (b : Json) : Response := {| status := 200; body := b |}.

(** What a handler does with a request: it responds at once, or it awaits
    one call on the store inside its [try] block and responds from the
    result ([k]) or, when the call rejects, from its [catch] block. *)
Inductive Handler : Type :=
| Respond (r : Response)
| AwaitFind (query : Store.Filter)
    (k : list Measurement -> Response) (catch : Response)
| AwaitAggregate (matchStage : Store.Filter) (g : Store.GroupStage)
    (k : list Store.Group -> Response) (catch : Response).

Record Outcome : Type := {
  response : Response;
  store_after : Store.State;
  issued : list Store.Call
}.

(** Running a handler against the store. *)
Definition run (s : Store.State) (h : Handler) : Outcome :=
  match h with
  | Respond r => {| response := r; store_after := s; issued := [] |}
  | AwaitFind query k catch =>
      {| response :=
           if Store.reachable s
           then k (Store.find (Store.documents s) query)
           else catch;
         store_after := s;
         issued := [Store.Find query] |}
  | AwaitAggregate matchStage g k catch =>
      {| response :=
           if Store.reachable s
           then k (Store.aggregate (Store.documents s) matchStage g)
           else catch;
         store_after := s;
         issued := [Store.Aggregate matchStage g] |}
  end.

(** ** [src/server/index.js] *)

Module Server.

Import JS.

Definition VALID_FIELDS : list string := ["temperature"; "humidity"; "pressure"].

(** [function isValidDate(dateString)] *)
Definition isValidDate (dateString : string) : bool :=
  let regex :=
    [Digit; Digit; Digit; Digit; Lit "-"; Digit; Digit; Lit "-"; Digit; Digit] in
  if negb (regex_test regex dateString) then false
  else
    let date := new_Date dateString in
    negb (isNaN_Date date).         (* [date instanceof Date] always holds *)

(** The string of a parameter that passed a truthiness test. *)
Definition text (p : Param) : string :=
  match p with Some s => s | None => EmptyString end.

Definition invalid_field : Response :=
  fail 400 "Invalid field name"
    ("Field must be one of: " ++ join VALID_FIELDS ", ").

Definition missing_field : Response :=
  fail 400 "Missing field parameter"
    ("Field is required. Must be one of: " ++ join VALID_FIELDS ", ").

Definition invalid_start_date : Response :=
  fail 400 "Invalid start_date format" "Date must be in YYYY-MM-DD format".

Definition invalid_end_date : Response :=
  fail 400 "Invalid end_date format" "Date must be in YYYY-MM-DD format".

Definition no_data : Response :=
  fail 404 "No data found" "No measurements found for the specified criteria".

(** The result of the block that builds [dateFilter]: an early [return]
    of a response, or the filter. *)
Inductive Built : Type :=
| Return (r : Response)
| Filtered (dateFilter : Store.DateFilter).

(** [const dateFilter = {}; if (start_date) {...} if (end_date) {...}],
    the same block in both handlers.  [isValidDate] guards each
    [new Date], so the dates assigned to [$gte] and [$lte] are valid and
    [None] only stands for a key that was not assigned. *)
Definition build_dateFilter (localTZA : Z) (start_date end_date : Param) : Built :=
  if truthy start_date && negb (isValidDate (text start_date))
  then Return invalid_start_date
  else
    let gte := if truthy start_date then new_Date (text start_date) else None in
    if truthy end_date && negb (isValidDate (text end_date))
    then Return invalid_end_date
    else
      let lte :=
        if truthy end_date then
          match new_Date (text end_date) with
          | Some endDateTime => Some (setHours localTZA endDateTime 23 59 59 999)
          | None => None
          end
        else None in
      Filtered {| Store.gte := gte; Store.lte := lte |}.

(** [Object.keys(dateFilter).length > 0] *)
Definition has_keys (f : Store.DateFilter) : bool :=
  match Store.gte f, Store.lte f with
  | None, None => false
  | _, _ => true
  end.

(** [const query = {}; if (...) query.timestamp = dateFilter;] *)
Definition filter_document (f : Store.DateFilter) : Store.Filter :=
  if has_keys f then Some f else None.

(** Lines 71-86: what the list handler sends once [find] has resolved. *)
Definition send_measurements (q : ReqQuery) (measurements : list Measurement) : Response :=
  if (List.length measurements =? 0)%nat then no_data
  else if truthy (field q) then
    let result :=
      map (fun m =>
             {| row_timestamp := timestamp m;
                row_key := text (field q);
                row_value := Store.prop (text (field q)) m |})
          measurements in
    json (Projection result)
  else json (Measurements measurements).

(** [app.get("/api/measurements", ...)] *)
Definition get_measurements (localTZA : Z) (q : ReqQuery) : Handler :=
  if truthy (field q) && negb (includes VALID_FIELDS (text (field q)))
  then Respond invalid_field
  else
    match build_dateFilter localTZA (start_date q) (end_date q) with
    | Return r => Respond r
    | Filtered dateFilter =>
        let query := filter_document dateFilter in
        AwaitFind query (send_measurements q)
          (fail 500 "Internal server error" "An error occurred while fetching data")
    end.

(** [Math.round(x * 100) / 100] *)
Definition round2 (x : R) : R := (Math_round (x * 100) / 100)%R.

(** Lines 155-171: what the metrics handler sends once [aggregate] has
    resolved. *)
Definition send_metrics (q : ReqQuery) (aggregationResult : list Store.Group) : Response :=
  match aggregationResult with
  | [] => no_data
  | g :: _ =>
      json (MetricsBody (text (field q)) (Store.count g)
              (round2 (ToNumber (Store.avg g)))
              (round2 (ToNumber (Store.min g)))
              (round2 (ToNumber (Store.max g)))
              (round2 (or_zero (Store.stdDev g))))
  end.

(** [app.get("/api/measurements/metrics", ...)] *)
Definition get_metrics (localTZA : Z) (q : ReqQuery) : Handler :=
  if negb (truthy (field q)) then Respond missing_field
  else if negb (includes VALID_FIELDS (text (field q))) then Respond invalid_field
  else
    match build_dateFilter localTZA (start_date q) (end_date q) with
    | Return r => Respond r
    | Filtered dateFilter =>
        let matchStage := filter_document dateFilter in
        AwaitAggregate matchStage
          {| Store.path := text (field q); Store.extra := Store.StdDevPop |}
          (send_metrics q)
          (fail 500 "Internal server error" "An error occurred while calculating metrics")
    end.

(** The two routes of the query API. *)
Inductive Route : Set :=
| ApiMeasurements      (* GET /api/measurements *)
| ApiMetrics.          (* GET /api/measurements/metrics *)

Definition app (localTZA : Z) (route : Route) (q : ReqQuery) : Handler :=
  match route with
  | ApiMeasurements => get_measurements localTZA q
  | ApiMetrics => get_metrics localTZA q
  end.

End Server.

(** ** The metrics handler that reduces the pushed values locally
    ([src/unnamed/part_000]) *)

Module LocalReduction.

Import JS.

(** [function calculateStdDev(values, mean)] *)
Definition calculateStdDev (values : list R) (mean : R) : R :=
  if (List.length values =? 0)%nat then 0%R
  else
    let squaredDiffs := map (fun value => ((value - mean) ^ 2)%R) values in
    let avgSquaredDiff :=
      (fold_left (fun sum val => sum + val) squaredDiffs 0 / INR (List.length values))%R in
    sqrt avgSquaredDiff.

(** Lines 225-244: what the handler sends once [aggregate] has
    resolved. *)
Definition send_metrics (q : ReqQuery) (aggregationResult : list Store.Group) : Response :=
  match aggregationResult with
  | [] => Server.no_data
  | g :: _ =>
      let stdDev := calculateStdDev (Store.values g) (ToNumber (Store.avg g)) in
      json (MetricsBody (Server.text (field q)) (Store.count g)
              (Server.round2 (ToNumber (Store.avg g)))
              (Server.round2 (ToNumber (Store.min g)))
              (Server.round2 (ToNumber (Store.max g)))
              (Server.round2 stdDev))
  end.

(** [app.get("/api/measurements/metrics", ...)]; the validation and the
    [dateFilter] block are the same text as in [src/server/index.js]. *)
Definition get_metrics (localTZA : Z) (q : ReqQuery) : Handler :=
  if negb (truthy (field q)) then Respond Server.missing_field
  else if negb (includes Server.VALID_FIELDS (Server.text (field q)))
  then Respond Server.invalid_field
  else
    match Server.build_dateFilter localTZA (start_date q) (end_date q) with
    | Server.Return r => Respond r
    | Server.Filtered dateFilter =>
        let matchStage := Server.filter_document dateFilter in
        AwaitAggregate matchStage
          {| Store.path := Server.text (field q); Store.extra := Store.Push |}
          (send_metrics q)
          (fail 500 "Internal server error" "An error occurred while calculating metrics")
    end.

End LocalReduction.

(** ** Vocabulary of the specification *)

Module Validation.

Import JS.

(** A parameter is supplied when it is a non-empty string. *)
Definition supplied (p : Param) (s : string) : Prop :=
  p = Some s /\ s <> EmptyString.

(** The literal pattern YYYY-MM-DD. *)
Definition matches_pattern (s : string) : bool := regex_test iso_date_only s.

(** The string parses to a date. *)
Definition parses (s : string) : bool := negb (isNaN_Date (new_Date s)).

(** The field check of a route fails: an invalid field on either route,
    a missing one on the metrics route. *)
Definition field_rejected (route : Server.Route) (q : ReqQuery) : bool :=
  match route with
  | Server.ApiMeasurements =>
      truthy (field q) && negb (includes Server.VALID_FIELDS (Server.text (field q)))
  | Server.ApiMetrics =>
      negb (truthy (field q))
      || negb (includes Server.VALID_FIELDS (Server.text (field q)))
  end.

(** A supplied bound is malformed. *)
Definition date_rejected (p : Param) : bool :=
  truthy p && negb (matches_pattern (Server.text p) && parses (Server.text p)).

(** The request fails validation. *)
Definition rejected (route : Server.Route) (q : ReqQuery) : bool :=
  field_rejected route q || date_rejected (start_date q) || date_rejected (end_date q).

(** The instant a supplied bound denotes, when it parses. *)
Definition instant (p : Param) : option Z :=
  if truthy p then new_Date (Server.text p) else None.

(** The range the accepted bounds of a request denote: the start
    instant, and the end instant moved by [setHours(23, 59, 59, 999)]. *)
Definition range (localTZA : Z) (start_date end_date : Param) : Store.DateFilter :=
  {| Store.gte := instant start_date;
     Store.lte := option_map (fun t => setHours localTZA t 23 59 59 999)
                    (instant end_date) |}.

(** The filter document sent to the store for an accepted request. *)
Definition planned (localTZA : Z) (q : ReqQuery) : Store.Filter :=
  Server.filter_document (range localTZA (start_date q) (end_date q)).

End Validation.

(** The documents of the store a filter document selects. *)
Definition selected (s : Store.State) (f : Store.Filter) : list Measurement :=
  filter (Store.matches f) (Store.documents s).

(** The squares of a list of values. *)
Definition squares (l : list R) : list R := map (fun v => (v * v)%R) l.

(** Ascending order of timestamps. *)
Definition by_timestamp (a b : Measurement) : Prop := timestamp a <= timestamp b.

(** The three error kinds of the validation taxonomy, read off the
    [error] label of a response body. *)
Definition error_label (r : Response) : option string :=
  match body r with
  | ErrorBody error _ => Some error
  | _ => None
  end.

(** ** [GET /api/fields] ([src/server/index.js], lines 181-190) *)

Module Fields.




End Fields.

(** ** The collection job ([src/unnamed/part_000], [fetchWeatherData]) *)

Module Collector.

(** A property of the parsed JSON body that should hold a number: it may
    be missing ([undefined]), [null], or a number.  Other JSON types are
    left out. *)
Inductive Field (A : Type) : Type :=
| Undefined
| Null
| Number (n : A).

Arguments Undefined {A}.
Arguments Null {A}.
Arguments Number {A} n.

(** [data.main]: [None] when the property is missing or [null], in which
    case reading [data.main.temp] throws. *)
Record Main : Type := {
  temp : Field R;
  main_humidity : Field R;
  main_pressure : Field R
}.

(** The parsed body [data].  A body that is not an object behaves as one
    without [dt] and [main]: the property reads throw or give
    [undefined]. *)
Record WeatherData : Type := {
  dt : Field Z;              (* seconds since the epoch *)
  main : option Main
}.

(** [await fetch(url)] followed by [await res.json()]: either of them
    rejects, or the body is parsed. *)
Inductive Fetched : Type :=
| Rejected
| Parsed (data : WeatherData).

(** [x * 1000] on such a property: [undefined] gives NaN ([None]),
    [null] converts to [0]. *)
Definition times_1000 (x : Field Z) : option Z :=
  match x with
  | Undefined => None
  | Null => Some 0
  | Number n => Some (n * 1000)
  end.

(** [new Date(value)] on a number: the invalid date for NaN and for a
    time value outside the range of [TimeClip]. *)
Definition new_Date_value (value : option Z) : JS.Date :=
  match value with
  | None => None
  | Some t => if Z.abs t <=? 8640000000000000 then Some t else None
  end.

(** The object handed to [Measurement.create]. *)
Record Document : Type := {
  doc_timestamp : JS.Date;
  doc_temperature : Field R;
  doc_humidity : Field R;
  doc_pressure : Field R
}.

(** [required: true] on a [Number] path. *)
Definition required (x : Field R) : option R :=
  match x with
  | Number n => Some n
  | Undefined | Null => None
  end.

(** Validation against [measurementSchema]: the four paths are required,
    and an invalid date does not cast to [Date]. *)
Definition validate (d : Document) : option Measurement :=
  match doc_timestamp d, required (doc_temperature d),
        required (doc_humidity d), required (doc_pressure d) with
  | Some t, Some a, Some b, Some c =>
      Some {| timestamp := t; temperature := a; humidity := b; pressure := c |}
  | _, _, _, _ => None
  end.

(** [await Measurement.create(doc)]: rejects ([None]) when validation
    fails, otherwise appends the document to the collection. *)
Definition create (s : Store.State) (d : Document) : option Store.State :=
  match validate d with
  | None => None
  | Some m =>
      Some {| Store.documents := Store.documents s ++ [m];
              Store.reachable := Store.reachable s |}
  end.

(** [fetchWeatherData()]: the store it leaves and the code it passes to
    [process.exit].  [mongoose.connect] rejects when the store is not
    reachable. *)
Definition fetchWeatherData (fetched : Fetched) (s : Store.State)
    : Store.State * Z :=
  match fetched with
  | Rejected => (s, 1)
  | Parsed data =>
      if negb (Store.reachable s) then (s, 1)
      else
        match main data with
        | None => (s, 1)                       (* TypeError *)
        | Some m =>
            match create s
                    {| doc_timestamp := new_Date_value (times_1000 (dt data));
                       doc_temperature := temp m;
                       doc_humidity := main_humidity m;
                       doc_pressure := main_pressure m |} with
            | Some s' => (s', 0)
            | None => (s, 1)
            end
        end
  end.

End Collector.

(** ** Further vocabulary *)

(** The projection of one record on a field, as the list handler builds
    it. *)
Definition project (key : string) (m : Measurement) : ProjectedRow :=
  {| row_timestamp := timestamp m; row_key := key; row_value := Store.prop key m |}.

(** The request with one of its parameters taken away. *)
Definition without_field (q : ReqQuery) : ReqQuery :=
  {| field := None; start_date := start_date q; end_date := end_date q |}.

Definition without_start (q : ReqQuery) : ReqQuery :=
  {| field := field q; start_date := None; end_date := end_date q |}.

Definition without_end (q : ReqQuery) : ReqQuery :=
  {| field := field q; start_date := start_date q; end_date := None |}.

(** [check] holds of the [n] integers from [y] on. *)
Fixpoint checked_from (n : nat) (y : Z) (check : Z -> bool) : bool :=
  match n with
  | O => true
  | S n' => check y && checked_from n' (y + 1) check
  end.

(** The number of rows of a list answer. *)
Definition row_count (r : Response) : nat :=
  match body r with
  | Measurements rows => List.length rows
  | Projection rows => List.length rows
  | _ => 0
  end.

(** * Properties *)

(** ** The language primitives *)

Example new_Date_2025_01_01 : JS.new_Date "2025-01-01" = Some 1735689600000.
Proof. vm_compute. reflexivity. Qed.

Example new_Date_epoch : JS.new_Date "1970-01-01" = Some 0.
Proof. vm_compute. reflexivity. Qed.

Example new_Date_leap_day : JS.new_Date "2024-02-29" = Some 1709164800000.
Proof. vm_compute. reflexivity. Qed.

Example new_Date_month_13 : JS.new_Date "2025-13-01" = None.
Proof. vm_compute. reflexivity. Qed.

(** The engine lets a day past the end of the month run over. *)
Example new_Date_day_overflow :
  JS.new_Date "2025-02-30" = JS.new_Date "2025-03-02".
Proof. vm_compute. reflexivity. Qed.

Lemma includes_In (xs : list string) (x : string) :
  JS.includes xs x = true <-> In x xs.
Proof.
  induction xs as [|y ys IH]; simpl.
  - split; [discriminate | tauto].
  - destruct (String.eqb_spec y x) as [->|Hne].
    + split; auto.
    + rewrite IH. split; [auto | intros [H|H]; [contradiction | exact H]].
Qed.

Lemma truthy_supplied (p : JS.Param) (s : string) :
  Validation.supplied p s -> JS.truthy p = true /\ Server.text p = s.
Proof.
  intros [-> Hs]. destruct s; [contradiction | split; reflexivity].
Qed.


Lemma isValidDate_eq (s : string) :
  Server.isValidDate s = Validation.matches_pattern s && Validation.parses s.
Proof.
  unfold Server.isValidDate, Validation.matches_pattern, Validation.parses.
  fold JS.iso_date_only.
  destruct (JS.regex_test JS.iso_date_only s); reflexivity.
Qed.

Lemma isValidDate_new_Date (s : string) :
  Server.isValidDate s = true -> exists t, JS.new_Date s = Some t.
Proof.
  rewrite isValidDate_eq. unfold Validation.parses.
  intros H. apply andb_true_iff in H as [_ H].
  destruct (JS.new_Date s) as [t|]; [eauto | discriminate].
Qed.

(** ** The block that builds [dateFilter] *)

Lemma build_start_rejected (tz : Z) (sd ed : JS.Param) :
  Validation.date_rejected sd = true ->
  Server.build_dateFilter tz sd ed = Server.Return Server.invalid_start_date.
Proof.
  unfold Validation.date_rejected, Server.build_dateFilter.
  rewrite isValidDate_eq. intros ->. reflexivity.
Qed.

Lemma build_end_rejected (tz : Z) (sd ed : JS.Param) :
  Validation.date_rejected sd = false ->
  Validation.date_rejected ed = true ->
  Server.build_dateFilter tz sd ed = Server.Return Server.invalid_end_date.
Proof.
  unfold Validation.date_rejected, Server.build_dateFilter.
  rewrite !isValidDate_eq. intros -> ->. reflexivity.
Qed.

Lemma build_accepted (tz : Z) (sd ed : JS.Param) :
  Validation.date_rejected sd = false ->
  Validation.date_rejected ed = false ->
  Server.build_dateFilter tz sd ed =
  Server.Filtered (Validation.range tz sd ed).
Proof.
  unfold Validation.date_rejected, Server.build_dateFilter, Validation.range,
    Validation.instant.
  rewrite !isValidDate_eq. intros -> ->.
  destruct (JS.truthy ed); [|reflexivity].
  destruct (JS.new_Date (Server.text ed)); reflexivity.
Qed.

(** A bound that was accepted and supplied denotes an instant. *)
Lemma accepted_instant (p : JS.Param) :
  Validation.date_rejected p = false ->
  JS.truthy p = true ->
  exists t, Validation.instant p = Some t.
Proof.
  unfold Validation.date_rejected, Validation.instant. intros H Ht.
  rewrite Ht in *. simpl in H. apply negb_false_iff in H. rewrite <- isValidDate_eq in H.
  apply isValidDate_new_Date. exact H.
Qed.

Lemma build_cases (tz : Z) (sd ed : JS.Param) :
  (exists r, Server.build_dateFilter tz sd ed = Server.Return r /\ status r = 400
             /\ (Validation.date_rejected sd || Validation.date_rejected ed = true))
  \/ (exists f, Server.build_dateFilter tz sd ed = Server.Filtered f
             /\ Validation.date_rejected sd = false
             /\ Validation.date_rejected ed = false).
Proof.
  destruct (Validation.date_rejected sd) eqn:Hs.
  - left. eexists. rewrite build_start_rejected by assumption. auto.
  - destruct (Validation.date_rejected ed) eqn:He.
    + left. eexists. rewrite build_end_rejected by assumption. auto.
    + right. eexists. rewrite build_accepted by assumption. auto.
Qed.

(** ** The shape of a handler run *)

(** Splits the hypothesis that a request passed validation into its
    three checks. *)
Ltac accepted_checks H Hf Hs He :=
  unfold Validation.rejected in H;
  apply orb_false_iff in H as [H He];
  apply orb_false_iff in H as [Hf Hs];
  unfold Validation.field_rejected in Hf.

Lemma list_accepted (tz : Z) (q : ReqQuery) :
  Validation.rejected Server.ApiMeasurements q = false ->
  Server.get_measurements tz q =
  AwaitFind (Validation.planned tz q) (Server.send_measurements q)
    (fail 500 "Internal server error" "An error occurred while fetching data").
Proof.
  intros H. accepted_checks H Hf Hs He.
  unfold Server.get_measurements. rewrite Hf.
  rewrite build_accepted by assumption. reflexivity.
Qed.

Lemma metrics_accepted (tz : Z) (q : ReqQuery) :
  Validation.rejected Server.ApiMetrics q = false ->
  Server.get_metrics tz q =
  AwaitAggregate (Validation.planned tz q)
    {| Store.path := Server.text (field q); Store.extra := Store.StdDevPop |}
    (Server.send_metrics q)
    (fail 500 "Internal server error" "An error occurred while calculating metrics").
Proof.
  intros H. accepted_checks H Hf Hs He.
  apply orb_false_iff in Hf as [Hf1 Hf2].
  unfold Server.get_metrics. rewrite Hf1, Hf2.
  rewrite build_accepted by assumption. reflexivity.
Qed.


(** Past the field check, both routes run the same [dateFilter] block. *)
Lemma app_field_accepted (tz : Z) (route : Server.Route) (q : ReqQuery) :
  Validation.field_rejected route q = false ->
  (forall r, Server.build_dateFilter tz (start_date q) (end_date q) = Server.Return r ->
             Server.app tz route q = Respond r).
Proof.
  intros Hf r Hb.
  destruct route; unfold Validation.field_rejected in Hf; unfold Server.app.
  - unfold Server.get_measurements. rewrite Hf, Hb. reflexivity.
  - apply orb_false_iff in Hf as [Hf1 Hf2].
    unfold Server.get_metrics. rewrite Hf1, Hf2, Hb. reflexivity.
Qed.

Lemma app_field_rejected (tz : Z) (route : Server.Route) (q : ReqQuery) :
  Validation.field_rejected route q = true ->
  exists r, Server.app tz route q = Respond r /\ status r = 400
            /\ (r = Server.missing_field \/ r = Server.invalid_field).
Proof.
  intros Hf.
  destruct route; unfold Validation.field_rejected in Hf; unfold Server.app.
  - unfold Server.get_measurements. rewrite Hf. eauto.
  - unfold Server.get_metrics.
    destruct (negb (JS.truthy (field q))); [eauto|].
    rewrite orb_false_l in Hf. rewrite Hf. eauto.
Qed.

Lemma app_rejected (tz : Z) (route : Server.Route) (q : ReqQuery) :
  Validation.rejected route q = true ->
  exists r, Server.app tz route q = Respond r /\ status r = 400.
Proof.
  unfold Validation.rejected. intros H.
  destruct (Validation.field_rejected route q) eqn:Hf.
  - destruct (app_field_rejected tz route q Hf) as (r & Hr & Hs & _). eauto.
  - simpl in H.
    destruct (build_cases tz (start_date q) (end_date q))
      as [(r & Hb & Hs & _) | (f & _ & H1 & H2)].
    + exists r. split; [|exact Hs]. apply app_field_accepted; assumption.
    + rewrite H1, H2 in H. discriminate.
Qed.

(** The error labels a request that passed the field check can still
    receive. *)
Lemma send_measurements_label (q : ReqQuery) (l : list Measurement) :
  error_label (Server.send_measurements q l) = Some "No data found"
  \/ error_label (Server.send_measurements q l) = None.
Proof.
  unfold Server.send_measurements.
  destruct (List.length l =? 0)%nat; [left; reflexivity|].
  destruct (JS.truthy (field q)); right; reflexivity.
Qed.

Lemma list_labels (tz : Z) (q : ReqQuery) (s : Store.State) :
  Validation.field_rejected Server.ApiMeasurements q = false ->
  In (error_label (response (run s (Server.get_measurements tz q))))
     [Some "Invalid start_date format"; Some "Invalid end_date format";
      Some "No data found"; Some "Internal server error"; None].
Proof.
  intros Hf. change (Server.get_measurements tz q) with (Server.app tz Server.ApiMeasurements q).
  destruct (Validation.date_rejected (start_date q)) eqn:Hs.
  { rewrite (app_field_accepted tz Server.ApiMeasurements q Hf _
               (build_start_rejected tz _ _ Hs)).
    simpl. auto. }
  destruct (Validation.date_rejected (end_date q)) eqn:He.
  { rewrite (app_field_accepted tz Server.ApiMeasurements q Hf _
               (build_end_rejected tz _ _ Hs He)).
    simpl. auto. }
  unfold Server.app.
  rewrite list_accepted by (unfold Validation.rejected; rewrite Hf, Hs, He; reflexivity).
  unfold run, response.
  destruct (Store.reachable s).
  - destruct (send_measurements_label q
                (Store.find (Store.documents s) (Validation.planned tz q))) as [-> | ->];
      simpl; auto 6.
  - simpl. auto 6.
Qed.

(** ** Field validation *)

(** C4.  On the metrics route an absent field gives the MissingField
    error and a supplied field outside temperature, humidity, pressure
    gives the InvalidField error, both with status 400, the latter with a
    message listing the valid names; the two error kinds differ.  On the
    list route an absent field never gives a field error and an invalid
    one gives InvalidField. *)
Theorem C4_field_validation (tz : Z) (q : ReqQuery) :
  (field q = None -> Server.get_metrics tz q = Respond Server.missing_field)
  /\ (forall f, Validation.supplied (field q) f -> ~ In f Server.VALID_FIELDS ->
        Server.get_metrics tz q = Respond Server.invalid_field)
  /\ Server.missing_field =
       fail 400 "Missing field parameter"
         "Field is required. Must be one of: temperature, humidity, pressure"
  /\ Server.invalid_field =
       fail 400 "Invalid field name"
         "Field must be one of: temperature, humidity, pressure"
  /\ error_label Server.missing_field <> error_label Server.invalid_field
  /\ (field q = None -> forall s,
        let r := response (run s (Server.get_measurements tz q)) in
        error_label r <> error_label Server.invalid_field
        /\ error_label r <> error_label Server.missing_field)
  /\ (forall f, Validation.supplied (field q) f -> ~ In f Server.VALID_FIELDS ->
        Server.get_measurements tz q = Respond Server.invalid_field).
Proof.
  assert (Hinv : forall f, Validation.supplied (field q) f -> ~ In f Server.VALID_FIELDS ->
                 JS.truthy (field q) = true
                 /\ JS.includes Server.VALID_FIELDS (Server.text (field q)) = false).
  { intros f Hsup Hnot. destruct (truthy_supplied _ _ Hsup) as [Ht Htx].
    split; [exact Ht|]. rewrite Htx.
    destruct (JS.includes Server.VALID_FIELDS f) eqn:Hi; [|reflexivity].
    apply includes_In in Hi. contradiction. }
  repeat split.
  - intros Hnone. unfold Server.get_metrics. rewrite Hnone. reflexivity.
  - intros f Hsup Hnot. destruct (Hinv f Hsup Hnot) as [Ht Hi].
    unfold Server.get_metrics. rewrite Ht, Hi. reflexivity.
  - discriminate.
  - assert (Hf : Validation.field_rejected Server.ApiMeasurements q = false).
    { unfold Validation.field_rejected. rewrite H. reflexivity. }
    pose proof (list_labels tz q s Hf) as Hl.
    simpl in Hl. intros Heq. rewrite Heq in Hl.
    repeat destruct Hl as [Hl | Hl]; try discriminate Hl; exact Hl.
  - assert (Hf : Validation.field_rejected Server.ApiMeasurements q = false).
    { unfold Validation.field_rejected. rewrite H. reflexivity. }
    pose proof (list_labels tz q s Hf) as Hl.
    simpl in Hl. intros Heq. rewrite Heq in Hl.
    repeat destruct Hl as [Hl | Hl]; try discriminate Hl; exact Hl.
  - intros f Hsup Hnot. destruct (Hinv f Hsup Hnot) as [Ht Hi].
    unfold Server.get_measurements. rewrite Ht, Hi. reflexivity.
Qed.

Lemma C4_field_validation_witness :
  let q := {| field := Some "wind"; start_date := None; end_date := None |} in
  Server.get_metrics 0 q = Respond Server.invalid_field
  /\ Server.get_measurements 0 q = Respond Server.invalid_field
  /\ Server.get_metrics 0 {| field := None; start_date := None; end_date := None |}
     = Respond Server.missing_field.
Proof.
  intros q.
  assert (Hsup : Validation.supplied (field q) "wind").
  { split; [reflexivity | discriminate]. }
  assert (Hnot : ~ In "wind" Server.VALID_FIELDS).
  { simpl. intros [H | [H | [H | []]]]; discriminate H. }
  split; [|split].
  - exact (proj1 (proj2 (C4_field_validation 0 q)) "wind" Hsup Hnot).
  - exact (proj2 (proj2 (proj2 (proj2 (proj2 (proj2 (C4_field_validation 0 q))))))
             "wind" Hsup Hnot).
  - exact (proj1 (C4_field_validation 0
                    {| field := None; start_date := None; end_date := None |})
             eq_refl).
Defined.

(** ** Date validation *)







(** ** Validation comes before the store *)

(** C9.  A request that fails validation on either route (invalid field,
    missing field on the metrics route, malformed start_date or end_date)
    is answered with status 400 without any call being issued to the
    store, and the store is left as it was. *)
Theorem C9_validation_before_store (tz : Z) (route : Server.Route) (q : ReqQuery)
    (s : Store.State) :
  Validation.rejected route q = true ->
  status (response (run s (Server.app tz route q))) = 400
  /\ issued (run s (Server.app tz route q)) = []
  /\ store_after (run s (Server.app tz route q)) = s.
Proof.
  intros Hrej. destruct (app_rejected tz route q Hrej) as (r & -> & Hs).
  simpl. auto.
Qed.

Lemma C9_validation_before_store_witness :
  let s := {| Store.documents :=
                [{| timestamp := 1735689600000; temperature := 10;
                    humidity := 40; pressure := 1013 |}];
              Store.reachable := true |} in
  let q := {| field := Some "temperature"; start_date := None;
              end_date := Some "2025-1-1" |} in
  status (response (run s (Server.app 0 Server.ApiMetrics q))) = 400
  /\ issued (run s (Server.app 0 Server.ApiMetrics q)) = []
  /\ store_after (run s (Server.app 0 Server.ApiMetrics q)) = s.
Proof.
  intros s q. apply (C9_validation_before_store 0 Server.ApiMetrics q s).
  vm_compute. reflexivity.
Defined.

(** A request that passes validation issues exactly one call. *)
Lemma accepted_issues_one_call (tz : Z) (route : Server.Route) (q : ReqQuery)
    (s : Store.State) :
  Validation.rejected route q = false ->
  exists c, issued (run s (Server.app tz route q)) = [c].
Proof.
  intros Hacc. destruct route; unfold Server.app.
  - rewrite list_accepted by assumption. simpl. eauto.
  - rewrite metrics_accepted by assumption. simpl. eauto.
Qed.

(** ** Empty-string parameters *)

(** C10.  An empty-string parameter behaves as an absent one.  On the list
    route [field=] runs exactly as without field (no InvalidField error,
    and a successful answer carries full records), and [start_date=] or
    [end_date=] run exactly as without that bound (no bound in the range,
    no InvalidDateFormat error).  On the metrics route [field=] gives
    MissingField. *)
Theorem C10_empty_string_is_absent (tz : Z) (f sd ed : JS.Param) (s : Store.State) :
  Server.get_measurements tz {| field := Some EmptyString; start_date := sd; end_date := ed |}
  = Server.get_measurements tz {| field := None; start_date := sd; end_date := ed |}
  /\ error_label
       (response (run s (Server.get_measurements tz
          {| field := Some EmptyString; start_date := sd; end_date := ed |})))
     <> Some "Invalid field name"
  /\ (status (response (run s (Server.get_measurements tz
          {| field := Some EmptyString; start_date := sd; end_date := ed |}))) = 200 ->
      exists rows,
        body (response (run s (Server.get_measurements tz
          {| field := Some EmptyString; start_date := sd; end_date := ed |})))
        = Measurements rows)
  /\ Server.get_measurements tz {| field := f; start_date := Some EmptyString; end_date := ed |}
     = Server.get_measurements tz {| field := f; start_date := None; end_date := ed |}
  /\ Server.get_measurements tz {| field := f; start_date := sd; end_date := Some EmptyString |}
     = Server.get_measurements tz {| field := f; start_date := sd; end_date := None |}
  /\ Store.gte (Validation.range tz (Some EmptyString) ed) = None
  /\ Store.lte (Validation.range tz sd (Some EmptyString)) = None
  /\ Validation.date_rejected (Some EmptyString) = false
  /\ Server.get_metrics tz {| field := Some EmptyString; start_date := sd; end_date := ed |}
     = Respond Server.missing_field.
Proof.
  split; [reflexivity|]. split; [|split].
  - change (Server.get_measurements tz
              {| field := Some EmptyString; start_date := sd; end_date := ed |})
      with (Server.get_measurements tz
              {| field := None; start_date := sd; end_date := ed |}).
    pose proof (list_labels tz {| field := None; start_date := sd; end_date := ed |}
                  s eq_refl) as Hl.
    intros Heq. rewrite Heq in Hl. simpl in Hl.
    repeat destruct Hl as [Hl | Hl]; try discriminate Hl; exact Hl.
  - set (q := {| field := Some EmptyString; start_date := sd; end_date := ed |}).
    unfold Server.get_measurements.
    change (JS.truthy (field q) && _) with false. cbv iota.
    destruct (Server.build_dateFilter tz (start_date q) (end_date q)) as [r|df] eqn:Hb.
    + destruct (build_cases tz (start_date q) (end_date q))
        as [(r' & Hb' & Hs & _) | (f' & Hb' & _)]; rewrite Hb in Hb'.
      * injection Hb' as <-. simpl. rewrite Hs. discriminate.
      * discriminate.
    + unfold run, response. destruct (Store.reachable s); [|discriminate].
      unfold Server.send_measurements.
      destruct (List.length _ =? 0)%nat; [discriminate|].
      simpl. eauto.
  - repeat split; reflexivity.
Qed.

Lemma C10_empty_string_is_absent_witness :
  exists rows,
    body (response
            (run {| Store.documents :=
                      [{| timestamp := 1735689600000; temperature := 10;
                          humidity := 40; pressure := 1013 |}];
                    Store.reachable := true |}
                 (Server.get_measurements 0
                    {| field := Some EmptyString; start_date := None; end_date := None |})))
    = Measurements rows.
Proof.
  apply (proj1 (proj2 (proj2
           (C10_empty_string_is_absent 0 None None None
              {| Store.documents :=
                   [{| timestamp := 1735689600000; temperature := 10;
                       humidity := 40; pressure := 1013 |}];
                 Store.reachable := true |})))).
  reflexivity.
Defined.

(** ** The store: sorting and selection *)

Lemma insert_perm (m : Measurement) (l : list Measurement) :
  Permutation (Store.insert m l) (m :: l).
Proof.
  induction l as [|x l IH]; simpl; [reflexivity|].
  destruct (timestamp m <=? timestamp x); [reflexivity|].
  rewrite IH. apply perm_swap.
Qed.

Lemma sort_perm (l : list Measurement) : Permutation (Store.sort l) l.
Proof.
  induction l as [|m l IH]; simpl; [reflexivity|].
  rewrite insert_perm. constructor. exact IH.
Qed.

Lemma insert_hd (m a : Measurement) (l : list Measurement) :
  by_timestamp a m -> HdRel by_timestamp a l -> HdRel by_timestamp a (Store.insert m l).
Proof.
  intros Ham Hl. destruct l as [|x l]; simpl.
  - constructor. exact Ham.
  - destruct (timestamp m <=? timestamp x); constructor.
    + exact Ham.
    + inversion Hl; assumption.
Qed.

Lemma insert_sorted (m : Measurement) (l : list Measurement) :
  Sorted by_timestamp l -> Sorted by_timestamp (Store.insert m l).
Proof.
  induction 1 as [|x l Hs IH Hhd]; simpl.
  - repeat constructor.
  - destruct (Z.leb_spec (timestamp m) (timestamp x)) as [Hle | Hgt].
    + constructor; [constructor; assumption|]. constructor. exact Hle.
    + constructor; [exact IH|]. apply insert_hd; [|exact Hhd].
      unfold by_timestamp. lia.
Qed.

Lemma sort_sorted (l : list Measurement) : Sorted by_timestamp (Store.sort l).
Proof.
  induction l as [|m l IH]; simpl; [constructor|].
  apply insert_sorted. exact IH.
Qed.

Lemma sort_nil_iff (l : list Measurement) : Store.sort l = [] <-> l = [].
Proof.
  split; [|intros ->; reflexivity].
  intros H. apply Permutation_nil. rewrite <- H. apply sort_perm.
Qed.

Lemma find_selected (s : Store.State) (f : Store.Filter) :
  Store.find (Store.documents s) f = Store.sort (selected s f).
Proof. reflexivity. Qed.

(** A projection keeps the order of the rows it is mapped over. *)
Lemma Sorted_map_timestamp (key : string) (l : list Measurement) :
  Sorted by_timestamp l ->
  Sorted (fun a b => row_timestamp a <= row_timestamp b)
    (map (fun m => {| row_timestamp := timestamp m; row_key := key;
                      row_value := Store.prop key m |}) l).
Proof.
  induction 1 as [|x l Hs IH Hhd]; simpl; constructor; [exact IH|].
  destruct Hhd; simpl; constructor. assumption.
Qed.

Lemma prop_valid_field (key : string) (m : Measurement) :
  In key Server.VALID_FIELDS -> exists v, Store.prop key m = Some v.
Proof.
  simpl. intros [<- | [<- | [<- | []]]]; vm_compute; eauto.
Qed.

(** ** Listing: order and projection *)

(** In an accepted request a supplied field is one of the valid names. *)
Lemma accepted_field_valid (route : Server.Route) (q : ReqQuery) :
  Validation.rejected route q = false ->
  JS.truthy (field q) = true ->
  JS.includes Server.VALID_FIELDS (Server.text (field q)) = true.
Proof.
  unfold Validation.rejected. intros H Ht.
  apply orb_false_iff in H as [H _]. apply orb_false_iff in H as [H _].
  destruct route; unfold Validation.field_rejected in H; rewrite Ht in H.
  - rewrite andb_true_l in H. apply negb_false_iff in H. exact H.
  - rewrite orb_false_l in H. apply negb_false_iff in H. exact H.
Qed.

(** C6.  For a list request that passes validation and selects at least
    one document, the answer is the selected documents in non-decreasing
    order of timestamp: projected to the timestamp and the requested field
    when a field was supplied, the full records when it was not. *)
Theorem C6_list_sorted_projected (tz : Z) (q : ReqQuery) (s : Store.State) :
  Validation.rejected Server.ApiMeasurements q = false ->
  Store.reachable s = true ->
  selected s (Validation.planned tz q) <> [] ->
  let rows := Store.find (Store.documents s) (Validation.planned tz q) in
  Sorted by_timestamp rows
  /\ Permutation rows (selected s (Validation.planned tz q))
  /\ (forall f, Validation.supplied (field q) f ->
        let projected :=
          map (fun m => {| row_timestamp := timestamp m; row_key := f;
                           row_value := Store.prop f m |}) rows in
        response (run s (Server.get_measurements tz q)) = json (Projection projected)
        /\ Sorted (fun a b => row_timestamp a <= row_timestamp b) projected
        /\ In f Server.VALID_FIELDS
        /\ forall m, exists v, Store.prop f m = Some v)
  /\ (JS.truthy (field q) = false ->
        response (run s (Server.get_measurements tz q)) = json (Measurements rows)).
Proof.
  intros Hacc Hup Hsel rows.
  assert (Hrows : (List.length rows =? 0)%nat = false).
  { apply Nat.eqb_neq. intros Hlen. apply length_zero_iff_nil in Hlen.
    apply Hsel. apply sort_nil_iff. exact Hlen. }
  assert (Hresp : response (run s (Server.get_measurements tz q))
                  = Server.send_measurements q rows).
  { rewrite list_accepted by assumption. unfold run, response.
    rewrite Hup. reflexivity. }
  split; [apply sort_sorted|]. split; [apply sort_perm|]. split.
  - intros f Hsup projected. destruct (truthy_supplied _ _ Hsup) as [Ht Htx].
    split; [|split; [|split]].
    + rewrite Hresp. unfold Server.send_measurements.
      rewrite Hrows, Ht, Htx. reflexivity.
    + apply Sorted_map_timestamp. apply sort_sorted.
    + apply includes_In. rewrite <- Htx.
      eapply accepted_field_valid; eassumption.
    + intros m. apply prop_valid_field. apply includes_In. rewrite <- Htx.
      eapply accepted_field_valid; eassumption.
  - intros Hno. rewrite Hresp. unfold Server.send_measurements.
    rewrite Hrows, Hno. reflexivity.
Qed.

Lemma C6_list_sorted_projected_witness :
  response
    (run {| Store.documents :=
              [{| timestamp := 1735862400000; temperature := 30;
                  humidity := 60; pressure := 1010 |};
               {| timestamp := 1735689600000; temperature := 10;
                  humidity := 40; pressure := 1013 |};
               {| timestamp := 1735776000000; temperature := 20;
                  humidity := 50; pressure := 1015 |}];
            Store.reachable := true |}
       (Server.get_measurements 0
          {| field := Some "humidity"; start_date := Some "2025-01-02";
             end_date := Some "2025-01-02" |}))
  = json (Projection
            [{| row_timestamp := 1735776000000; row_key := "humidity";
                row_value := Some 50%R |}]).
Proof.
  refine (proj1 (proj1 (proj2 (proj2
            (C6_list_sorted_projected 0
               {| field := Some "humidity"; start_date := Some "2025-01-02";
                  end_date := Some "2025-01-02" |}
               {| Store.documents :=
                    [{| timestamp := 1735862400000; temperature := 30;
                        humidity := 60; pressure := 1010 |};
                     {| timestamp := 1735689600000; temperature := 10;
                        humidity := 40; pressure := 1013 |};
                     {| timestamp := 1735776000000; temperature := 20;
                        humidity := 50; pressure := 1015 |}];
                  Store.reachable := true |} _ _ _))) "humidity" _)).
  - vm_compute. reflexivity.
  - reflexivity.
  - vm_compute. discriminate.
  - split; [reflexivity | discriminate].
Defined.

(** ** The range of an accepted request *)

(** A bound that parses denotes midnight UTC of some day. *)
Lemma new_Date_midnight (s : string) (t : Z) :
  JS.new_Date s = Some t -> exists d, t = d * JS.msPerDay.
Proof.
  unfold JS.new_Date. destruct (JS.regex_test _ _); [|discriminate].
  destruct (_ && _); [|discriminate].
  intros H. injection H as <-. unfold JS.MakeDate. eexists. apply Z.add_0_r.
Qed.

Lemma instant_midnight (p : JS.Param) (t : Z) :
  Validation.instant p = Some t -> exists d, t = d * JS.msPerDay.
Proof.
  unfold Validation.instant. destruct (JS.truthy p); [|discriminate].
  apply new_Date_midnight.
Qed.

(** [setHours(23, 59, 59, 999)]: the last millisecond of the local day
    that contains the instant. *)
Lemma setHours_end_of_local_day (tz t : Z) :
  JS.setHours tz t 23 59 59 999
  = (t + tz) / JS.msPerDay * JS.msPerDay + (JS.msPerDay - 1) - tz.
Proof. reflexivity. Qed.


(** In a process whose local time is UTC the bounds are the first and
    the last millisecond of the UTC day. *)
Lemma setHours_utc (d : Z) :
  JS.setHours 0 (d * JS.msPerDay) 23 59 59 999 = d * JS.msPerDay + (JS.msPerDay - 1).
Proof.
  rewrite setHours_end_of_local_day, Z.add_0_r, Z.sub_0_r.
  rewrite Z.div_mul by (unfold JS.msPerDay; lia). reflexivity.
Qed.

Lemma range_utc_covers_end_day (sd ed : JS.Param) (te ts : Z) :
  Validation.instant ed = Some te ->
  Store.lte (Validation.range 0 sd ed) = Some (te + (JS.msPerDay - 1))
  /\ (te <= ts < te + JS.msPerDay ->
      match Store.lte (Validation.range 0 sd ed) with
      | Some hi => ts <=? hi
      | None => true
      end = true).
Proof.
  intros He. destruct (instant_midnight _ _ He) as [d ->].
  unfold Validation.range. rewrite He. simpl option_map. simpl Store.lte.
  rewrite setHours_utc. split; [reflexivity|].
  intros Hts. apply Z.leb_le. lia.
Qed.


Lemma accepted_nothing_selected (tz : Z) (route : Server.Route) (q : ReqQuery)
    (s : Store.State) :
  Validation.rejected route q = false ->
  Store.reachable s = true ->
  selected s (Validation.planned tz q) = [] ->
  response (run s (Server.app tz route q)) = Server.no_data.
Proof.
  intros Hacc Hup Hsel. destruct route; unfold Server.app.
  - rewrite list_accepted by assumption. unfold run, response.
    rewrite Hup, find_selected, Hsel. reflexivity.
  - rewrite metrics_accepted by assumption. unfold run, response.
    rewrite Hup. unfold Store.aggregate. fold (selected s (Validation.planned tz q)).
    rewrite Hsel. reflexivity.
Qed.

(** ** No data *)



(** The lower bound is the start instant itself, midnight UTC of the
    start date, and an absent bound leaves its side of the range open. *)
Lemma range_lower_bound (tz : Z) (sd ed : JS.Param) (t : Z) :
  Validation.instant sd = Some t ->
  Store.gte (Validation.range tz sd ed) = Some t /\ exists d, t = d * JS.msPerDay.
Proof.
  intros Hs. split; [exact Hs | exact (instant_midnight _ _ Hs)].
Qed.

Lemma range_absent_bound (tz : Z) (sd ed : JS.Param) :
  Store.gte (Validation.range tz None ed) = None
  /\ Store.lte (Validation.range tz sd None) = None
  /\ Validation.planned tz {| field := None; start_date := None; end_date := None |}
     = None.
Proof. repeat split; reflexivity. Qed.

(** C3, at an instance where the code departs from it.  In a process west
    of UTC (local time = UTC - 5 h) the bound for end_date 2025-01-02 is
    2025-01-02T04:59:59.999Z, the end of the local day before, and a record
    of 2025-01-02T12:00:00Z, which lies in that day in UTC and in local
    time alike, is not selected. *)
Theorem C3_end_of_day_in_local_time :
  let tz := -18000000 in
  let q := {| field := None; start_date := None; end_date := Some "2025-01-02" |} in
  let m := {| timestamp := 1735819200000; temperature := 20;
              humidity := 50; pressure := 1015 |} in
  JS.new_Date "2025-01-02" = Some 1735776000000
  /\ 1735776000000 <= timestamp m < 1735776000000 + JS.msPerDay
  /\ JS.Day (timestamp m + tz) = JS.Day 1735776000000
  /\ Validation.rejected Server.ApiMeasurements q = false
  /\ Validation.planned tz q
     = Some {| Store.gte := None; Store.lte := Some 1735793999999 |}
  /\ Store.matches (Validation.planned tz q) m = false
  /\ response (run {| Store.documents := [m]; Store.reachable := true |}
                 (Server.get_measurements tz q))
     = Server.no_data.
Proof.
  cbv zeta. repeat split; try (vm_compute; reflexivity); vm_compute; discriminate.
Qed.

(** East of UTC (local time = UTC + 5 h) with start_date and end_date
    both 2025-01-02, the range runs from 2025-01-02T00:00Z, which is 05:00
    local time, to 2025-01-02T18:59:59.999Z, the end of the local day: it
    is neither the UTC day nor the local day.  A record of 20:00Z on that
    UTC day and a record of 01:00 local time on that local day both fall
    outside. *)
Example range_east_of_utc :
  let tz := 18000000 in
  let q := {| field := None; start_date := Some "2025-01-02";
              end_date := Some "2025-01-02" |} in
  Validation.planned tz q
  = Some {| Store.gte := Some 1735776000000; Store.lte := Some 1735844399999 |}
  /\ Store.in_range (Validation.range tz (start_date q) (end_date q)) 1735848000000 = false
  /\ Store.in_range (Validation.range tz (start_date q) (end_date q)) 1735761600000 = false.
Proof. vm_compute. repeat split; reflexivity. Qed.

(** ** Real arithmetic of the accumulators *)

Local Open Scope R_scope.

Lemma fold_Rplus_acc (l : list R) (a : R) :
  fold_left Rplus l a = a + Store.sum l.
Proof.
  unfold Store.sum. revert a.
  induction l as [|x l IH]; intros a; simpl; [lra|].
  rewrite (IH (a + x)), (IH (0 + x)). lra.
Qed.

Lemma sum_cons (x : R) (l : list R) : Store.sum (x :: l) = x + Store.sum l.
Proof. unfold Store.sum at 1. simpl. rewrite fold_Rplus_acc. lra. Qed.

Lemma sum_snoc (l : list R) (x : R) : Store.sum (l ++ [x]) = Store.sum l + x.
Proof.
  unfold Store.sum at 1. rewrite fold_left_app. simpl. reflexivity.
Qed.






(** *** Rounding to two decimals *)



(** A number with at most two decimals is left as it is. *)
Lemma round2_hundredths (k : Z) : Server.round2 (IZR k / 100) = IZR k / 100.
Proof.
  unfold Server.round2, JS.Math_round.
  replace (IZR k / 100 * 100 + / 2) with (IZR k + / 2) by field.
  rewrite (Zfloor_eq k); [reflexivity | lra].
Qed.


(** *** The one-pass accumulator against the two-pass formula *)

Lemma running_snoc (l : list R) (x : R) :
  Store.running (l ++ [x]) = Store.running_step (Store.running l) x.
Proof. unfold Store.running. rewrite fold_left_app. reflexivity. Qed.

(** After any prefix the accumulator holds the count, the mean, and the
    sum of squares less the sum times the mean. *)
Lemma running_invariant (l : list R) :
  Store.seen (Store.running l) = List.length l
  /\ Store.mean (Store.running l) * INR (List.length l) = Store.sum l
  /\ Store.m2 (Store.running l)
     = Store.sum (squares l) - Store.sum l * Store.mean (Store.running l).
Proof.
  induction l as [|x l IH] using rev_ind.
  - unfold Store.running, Store.sum. simpl. repeat split; lra.
  - destruct IH as (Hn & Hmean & Hm2).
    rewrite running_snoc. unfold Store.running_step.
    cbn [Store.seen Store.mean Store.m2].
    unfold squares in *. rewrite map_app. simpl map. rewrite !sum_snoc.
    rewrite length_app, Nat.add_comm. simpl List.length.
    rewrite Hn, Hm2, <- Hmean.
    set (mu := Store.mean (Store.running l)).
    set (q := Store.sum (map (fun v => v * v) l)).
    assert (Hr : 0 <= INR (List.length l)) by apply pos_INR.
    rewrite !S_INR. set (r := INR (List.length l)) in *.
    split; [reflexivity|].
    split; field; lra.
Qed.

Lemma sum_squared_deviations (l : list R) (c : R) :
  Store.sum (map (fun v => (v - c) ^ 2) l)
  = Store.sum (squares l) - 2 * c * Store.sum l + INR (List.length l) * c * c.
Proof.
  induction l as [|x l IH].
  - unfold Store.sum. simpl. lra.
  - unfold squares in *. cbn [map]. rewrite !sum_cons, IH.
    change (List.length (x :: l)) with (S (List.length l)). rewrite S_INR. ring.
Qed.

(** [$stdDevPop] is the population standard deviation of section 4.3:
    the square root of the mean squared deviation from the average. *)
Lemma acc_stdDevPop_population (v : R) (l : list R) :
  let vs := v :: l in
  let avg := Store.sum vs / INR (List.length vs) in
  Store.acc_stdDevPop vs
  = Some (sqrt (Store.sum (map (fun x => (x - avg) ^ 2) vs) / INR (List.length vs))).
Proof.
  intros vs avg.
  destruct (running_invariant vs) as (Hn & Hmean & Hm2).
  assert (Hpos : 0 < INR (List.length vs)) by (apply lt_0_INR; simpl; lia).
  assert (Havg : Store.mean (Store.running vs) = avg).
  { unfold avg. rewrite <- Hmean. field. lra. }
  unfold Store.acc_stdDevPop. rewrite Hn. simpl List.length at 1. cbv iota.
  f_equal. f_equal. f_equal.
  rewrite Hm2, sum_squared_deviations, Havg.
  replace (Store.sum vs) with (avg * INR (List.length vs)) by (unfold avg; field; lra).
  ring.
Qed.

Lemma or_zero_Some (v : R) : JS.or_zero (Some v) = v.
Proof.
  unfold JS.or_zero. destruct (Req_dec_T v 0) as [-> | _]; reflexivity.
Qed.



(** *** The values of a valid field *)



(** ** Metrics *)

(** What the two metrics handlers send for an accepted request that
    selects at least one document. *)
Lemma aggregate_selected (s : Store.State) (f : Store.Filter) (g : Store.GroupStage) :
  selected s f <> [] ->
  Store.aggregate (Store.documents s) f g = [Store.group g (selected s f)].
Proof.
  intros Hsel. unfold Store.aggregate. fold (selected s f).
  destruct (selected s f); [contradiction | reflexivity].
Qed.


Section AcceptedMetricsRequest.

(** A metrics request that passed validation, answered by a reachable
    store in which its range selects at least one document. *)
Variable tz : Z.
Variable q : ReqQuery.
Variable s : Store.State.
Hypothesis Haccepted : Validation.rejected Server.ApiMetrics q = false.
Hypothesis Hreachable : Store.reachable s = true.
Hypothesis Hselected : selected s (Validation.planned tz q) <> [].

Let l : list Measurement := selected s (Validation.planned tz q).
Let vs : list R := Store.numbers (Server.text (field q)) l.

Lemma metrics_answer :
  response (run s (Server.get_metrics tz q))
  = json (MetricsBody (Server.text (field q)) (List.length l)
            (Server.round2 (JS.ToNumber (Store.acc_avg vs)))
            (Server.round2 (JS.ToNumber (Store.acc_min vs)))
            (Server.round2 (JS.ToNumber (Store.acc_max vs)))
            (Server.round2 (JS.or_zero (Store.acc_stdDevPop vs)))).
Proof.
  rewrite metrics_accepted by assumption. unfold run, response.
  rewrite Hreachable, aggregate_selected by assumption. reflexivity.
Qed.





End AcceptedMetricsRequest.



(** ** The three-record scenario *)

Lemma Rmin_of_le (a b : R) : a <= b -> Rmin a b = a.
Proof. intros H. unfold Rmin. destruct (Rle_dec a b); [reflexivity | contradiction]. Qed.

Lemma Rmax_of_le (a b : R) : a <= b -> Rmax a b = b.
Proof. intros H. unfold Rmax. destruct (Rle_dec a b); [reflexivity | contradiction]. Qed.

Lemma sqrt_between (lo hi x : R) :
  0 <= lo -> lo * lo <= x -> x < hi * hi -> 0 <= hi -> lo <= sqrt x < hi.
Proof.
  intros Hlo H1 H2 Hhi. split.
  - rewrite <- (sqrt_square lo Hlo). apply sqrt_le_1_alt. exact H1.
  - rewrite <- (sqrt_square hi Hhi). apply sqrt_lt_1_alt. split; [nra | exact H2].
Qed.

Lemma round2_stdDev_10_20_30 : Server.round2 (sqrt (200 / 3)) = 8.16.
Proof.
  destruct (sqrt_between 8.155 8.165 (200 / 3)) as [Hlo Hhi]; try lra.
  unfold Server.round2, JS.Math_round.
  rewrite (Zfloor_eq 816); [lra|].
  split; lra.
Qed.

(** C8.  With exactly three records, of 2025-01-01, 2025-01-02 and
    2025-01-03 at 00:00Z and temperatures 10, 20 and 30, the metrics
    request for temperature without date bounds is answered
    with field temperature, count 3, avg 20, min 10, max 30 and
    stdDev 8.16. *)
Theorem C8_three_record_scenario (tz : Z) (h1 p1 h2 p2 h3 p3 : R) :
  response
    (run {| Store.documents :=
              [{| timestamp := 1735689600000%Z; temperature := 10;
                  humidity := h1; pressure := p1 |};
               {| timestamp := 1735776000000%Z; temperature := 20;
                  humidity := h2; pressure := p2 |};
               {| timestamp := 1735862400000%Z; temperature := 30;
                  humidity := h3; pressure := p3 |}];
            Store.reachable := true |}
       (Server.get_metrics tz
          {| field := Some "temperature"; start_date := None; end_date := None |}))
  = json (MetricsBody "temperature" 3 20 10 30 8.16).
Proof.
  rewrite metrics_answer; [|reflexivity|reflexivity|discriminate].
  cbv zeta.
  change (selected _ _) with
    [{| timestamp := 1735689600000%Z; temperature := 10; humidity := h1; pressure := p1 |};
     {| timestamp := 1735776000000%Z; temperature := 20; humidity := h2; pressure := p2 |};
     {| timestamp := 1735862400000%Z; temperature := 30; humidity := h3; pressure := p3 |}].
  change (Store.numbers _ _) with [10; 20; 30].
  rewrite acc_stdDevPop_population, or_zero_Some.
  unfold Store.acc_avg, Store.acc_min, Store.acc_max, JS.ToNumber.
  cbn [fold_left map List.length field Server.text].
  rewrite !sum_cons. unfold Store.sum. cbn [fold_left].
  rewrite (Rmin_of_le 10 20), (Rmin_of_le 10 30) by lra.
  rewrite (Rmax_of_le 10 20), (Rmax_of_le 20 30) by lra.
  replace (INR 3) with 3 by (simpl; lra).
  replace ((10 + (20 + (30 + 0))) / 3) with (IZR 2000 / 100) by lra.
  replace (((10 - IZR 2000 / 100) ^ 2 + ((20 - IZR 2000 / 100) ^ 2
            + ((30 - IZR 2000 / 100) ^ 2 + 0))) / 3) with (200 / 3) by lra.
  replace 10 with (IZR 1000 / 100) at 1 by lra.
  replace 30 with (IZR 3000 / 100) at 1 by lra.
  rewrite !round2_hundredths, round2_stdDev_10_20_30.
  replace (IZR 2000 / 100) with 20 by lra.
  replace (IZR 1000 / 100) with 10 by lra.
  replace (IZR 3000 / 100) with 30 by lra.
  reflexivity.
Qed.

(** * Further properties of the code *)

(** ** [calculateStdDev] *)












(** ** Rounding to two decimals *)




(** ** The outcome of a request *)

Lemma rejected_answer (tz : Z) (route : Server.Route) (q : ReqQuery) (s : Store.State) :
  Validation.rejected route q = true ->
  status (response (run s (Server.app tz route q))) = 400%Z
  /\ error_label (response (run s (Server.app tz route q))) <> None.
Proof.
  intros Hrej. unfold Validation.rejected in Hrej.
  destruct (Validation.field_rejected route q) eqn:Hf.
  { destruct (app_field_rejected tz route q Hf) as (r & -> & _ & [-> | ->]);
      split; [reflexivity | discriminate | reflexivity | discriminate]. }
  destruct (Validation.date_rejected (start_date q)) eqn:Hs.
  { rewrite (app_field_accepted tz route q Hf _ (build_start_rejected tz _ _ Hs)).
    split; [reflexivity | discriminate]. }
  destruct (Validation.date_rejected (end_date q)) eqn:He; [|discriminate].
  rewrite (app_field_accepted tz route q Hf _ (build_end_rejected tz _ _ Hs He)).
  split; [reflexivity | discriminate].
Qed.

Lemma accepted_unreachable (tz : Z) (route : Server.Route) (q : ReqQuery)
    (s : Store.State) :
  Validation.rejected route q = false ->
  Store.reachable s = false ->
  status (response (run s (Server.app tz route q))) = 500%Z
  /\ error_label (response (run s (Server.app tz route q)))
     = Some "Internal server error".
Proof.
  intros Hacc Hdown. destruct route; unfold Server.app.
  - rewrite list_accepted by assumption. unfold run, response. rewrite Hdown.
    split; reflexivity.
  - rewrite metrics_accepted by assumption. unfold run, response. rewrite Hdown.
    split; reflexivity.
Qed.

Lemma accepted_selected (tz : Z) (route : Server.Route) (q : ReqQuery)
    (s : Store.State) :
  Validation.rejected route q = false ->
  Store.reachable s = true ->
  selected s (Validation.planned tz q) <> [] ->
  status (response (run s (Server.app tz route q))) = 200%Z
  /\ error_label (response (run s (Server.app tz route q))) = None.
Proof.
  intros Hacc Hup Hsel. destruct route; unfold Server.app.
  - rewrite list_accepted by assumption. unfold run, response.
    rewrite Hup, find_selected. unfold Server.send_measurements.
    destruct (Store.sort (selected s (Validation.planned tz q))) as [|m l] eqn:Hsort.
    + apply (proj1 (sort_nil_iff _)) in Hsort. contradiction.
    + cbn [List.length Nat.eqb]. destruct (JS.truthy (field q)); split; reflexivity.
  - rewrite metrics_accepted by assumption. unfold run, response.
    rewrite Hup, aggregate_selected by assumption. split; reflexivity.
Qed.

(** Settles a conjunction of equivalences between closed equations. *)
Ltac settle_status :=
  repeat match goal with
         | |- _ /\ _ => split
         | |- _ <-> _ => split; intros ?
         | H : _ /\ _ |- _ => destruct H
         end;
  try reflexivity; try discriminate; try congruence.

(** The status of the answer of either route tells what happened: 400
    exactly for a request that fails validation, 500 exactly for a valid
    request whose store call rejects, 404 exactly for a valid request that
    selects nothing, 200 exactly for a valid request that selects something;
    and the body is an error body exactly when the status is not 200. *)
Theorem status_classification (tz : Z) (route : Server.Route) (q : ReqQuery)
    (s : Store.State) :
  let r := response (run s (Server.app tz route q)) in
  (status r = 400%Z <-> Validation.rejected route q = true)
  /\ (status r = 500%Z <->
      Validation.rejected route q = false /\ Store.reachable s = false)
  /\ (status r = 404%Z <->
      Validation.rejected route q = false /\ Store.reachable s = true
      /\ selected s (Validation.planned tz q) = [])
  /\ (status r = 200%Z <->
      Validation.rejected route q = false /\ Store.reachable s = true
      /\ selected s (Validation.planned tz q) <> [])
  /\ (status r = 200%Z <-> error_label r = None).
Proof.
  intros r. subst r.
  destruct (Validation.rejected route q) eqn:Hrej.
  { destruct (rejected_answer tz route q s Hrej) as [-> Hl]. settle_status. }
  destruct (Store.reachable s) eqn:Hup.
  2:{ destruct (accepted_unreachable tz route q s Hrej Hup) as [-> ->].
      settle_status. }
  destruct (selected s (Validation.planned tz q)) as [|m l] eqn:Hsel.
  - rewrite (accepted_nothing_selected tz route q s Hrej Hup Hsel).
    unfold Server.no_data, fail, error_label. cbn [status body]. settle_status.
  - assert (Hne : selected s (Validation.planned tz q) <> []) by (rewrite Hsel; discriminate).
    destruct (accepted_selected tz route q s Hrej Hup Hne) as [-> ->].
    settle_status.
Qed.

(** A valid request issues exactly one call to the store, a [find] on the
    list route and an [aggregate] on the requested field on the metrics
    route, with the filter built from its bounds; no request changes the
    store. *)
Theorem one_read_per_valid_request (tz : Z) (route : Server.Route) (q : ReqQuery)
    (s : Store.State) :
  store_after (run s (Server.app tz route q)) = s
  /\ (Validation.rejected route q = false ->
      issued (run s (Server.app tz route q))
      = [match route with
         | Server.ApiMeasurements => Store.Find (Validation.planned tz q)
         | Server.ApiMetrics =>
             Store.Aggregate (Validation.planned tz q)
               {| Store.path := Server.text (field q);
                  Store.extra := Store.StdDevPop |}
         end]).
Proof.
  split.
  - destruct (Server.app tz route q); reflexivity.
  - intros Hacc. destruct route; unfold Server.app.
    + rewrite list_accepted by assumption. reflexivity.
    + rewrite metrics_accepted by assumption. reflexivity.
Qed.

Lemma one_read_per_valid_request_witness :
  issued (run {| Store.documents := []; Store.reachable := true |}
            (Server.app 0 Server.ApiMetrics
               {| field := Some "humidity"; start_date := Some "2025-01-01";
                  end_date := None |}))
  = [Store.Aggregate
       (Some {| Store.gte := Some 1735689600000%Z; Store.lte := None |})
       {| Store.path := "humidity"; Store.extra := Store.StdDevPop |}].
Proof.
  apply (proj2 (one_read_per_valid_request 0 Server.ApiMetrics
                  {| field := Some "humidity"; start_date := Some "2025-01-01";
                     end_date := None |}
                  {| Store.documents := []; Store.reachable := true |})).
  vm_compute. reflexivity.
Defined.

Lemma status_classification_witness :
  status (response
            (run {| Store.documents := []; Store.reachable := true |}
               (Server.app 0 Server.ApiMeasurements
                  {| field := None; start_date := None; end_date := None |})))
  = 404%Z.
Proof.
  apply (proj2 (proj1 (proj2 (proj2
           (status_classification 0 Server.ApiMeasurements
              {| field := None; start_date := None; end_date := None |}
              {| Store.documents := []; Store.reachable := true |}))))).
  repeat split; reflexivity.
Defined.

(** ** The list route with and without a field *)

Lemma matches_filter_document (f : Store.DateFilter) (m : Measurement) :
  Store.matches (Server.filter_document f) m = Store.in_range f (timestamp m).
Proof.
  destruct f as [[lo|] [hi|]]; reflexivity.
Qed.

Lemma rejected_with_valid_field (route : Server.Route) (q : ReqQuery) (f : string) :
  Validation.supplied (field q) f ->
  In f Server.VALID_FIELDS ->
  Validation.rejected route q
  = Validation.rejected Server.ApiMeasurements (without_field q).
Proof.
  intros Hsup Hin. destruct (truthy_supplied _ _ Hsup) as [Ht Htx].
  apply includes_In in Hin. rewrite <- Htx in Hin.
  unfold Validation.rejected, Validation.field_rejected.
  destruct route; rewrite Ht, Hin; reflexivity.
Qed.

(** Asking the list route for a valid field gives the projection, row by
    row and in the same order, of what the same request without field
    gives; when that is an error, the same error. *)
Theorem field_answer_is_projection (tz : Z) (q : ReqQuery) (s : Store.State)
    (f : string) :
  Validation.supplied (field q) f ->
  In f Server.VALID_FIELDS ->
  match body (response (run s (Server.get_measurements tz (without_field q)))) with
  | Measurements rows =>
      response (run s (Server.get_measurements tz q))
      = json (Projection (map (project f) rows))
  | _ =>
      response (run s (Server.get_measurements tz q))
      = response (run s (Server.get_measurements tz (without_field q)))
  end.
Proof.
  intros Hsup Hin.
  pose proof (rejected_with_valid_field Server.ApiMeasurements q f Hsup Hin) as Hsame.
  destruct (truthy_supplied _ _ Hsup) as [Ht Htx].
  destruct (Validation.rejected Server.ApiMeasurements (without_field q)) eqn:Hrej.
  - (* the bounds are rejected: the same early return *)
    assert (Hf : Validation.field_rejected Server.ApiMeasurements q = false).
    { unfold Validation.field_rejected. rewrite Ht.
      apply includes_In in Hin. rewrite Htx, Hin. reflexivity. }
    change (Server.get_measurements tz q) with (Server.app tz Server.ApiMeasurements q).
    change (Server.get_measurements tz (without_field q))
      with (Server.app tz Server.ApiMeasurements (without_field q)).
    destruct (build_cases tz (start_date q) (end_date q))
      as [(r & Hb & Hs & _) | (df & _ & H1 & H2)].
    + rewrite (app_field_accepted tz Server.ApiMeasurements q Hf r Hb).
      rewrite (app_field_accepted tz Server.ApiMeasurements (without_field q) eq_refl r Hb).
      cbn [run response].
      unfold Server.build_dateFilter in Hb.
      destruct (_ && _) in Hb.
      * injection Hb as <-. reflexivity.
      * destruct (_ && _) in Hb; [|discriminate]. injection Hb as <-. reflexivity.
    + unfold Validation.rejected in Hrej. cbn [start_date end_date without_field] in Hrej.
      rewrite H1, H2 in Hrej. discriminate.
  - rewrite (list_accepted tz q) by (rewrite Hsame; reflexivity).
    rewrite (list_accepted tz (without_field q)) by assumption.
    change (Validation.planned tz (without_field q)) with (Validation.planned tz q).
    unfold run, response. destruct (Store.reachable s); [|reflexivity].
    unfold Server.send_measurements. cbn [field without_field JS.truthy].
    rewrite Ht, Htx.
    destruct (List.length _ =? 0)%nat; reflexivity.
Qed.

Lemma field_answer_is_projection_witness :
  response
    (run {| Store.documents :=
              [{| timestamp := 1735776000000%Z; temperature := 20;
                  humidity := 50; pressure := 1015 |};
               {| timestamp := 1735689600000%Z; temperature := 10;
                  humidity := 40; pressure := 1013 |}];
            Store.reachable := true |}
       (Server.get_measurements 0
          {| field := Some "pressure"; start_date := None; end_date := None |}))
  = json (Projection
            [{| row_timestamp := 1735689600000%Z; row_key := "pressure";
                row_value := Some 1013 |};
             {| row_timestamp := 1735776000000%Z; row_key := "pressure";
                row_value := Some 1015 |}]).
Proof.
  refine (field_answer_is_projection 0
            {| field := Some "pressure"; start_date := None; end_date := None |}
            {| Store.documents :=
                 [{| timestamp := 1735776000000%Z; temperature := 20;
                     humidity := 50; pressure := 1015 |};
                  {| timestamp := 1735689600000%Z; temperature := 10;
                     humidity := 40; pressure := 1013 |}];
               Store.reachable := true |} "pressure" _ _).
  - split; [reflexivity | discriminate].
  - simpl. auto.
Defined.

(** ** The list route against the metrics route *)






(** ** The range, whatever the time zone *)

Local Open Scope Z_scope.


Lemma selected_iff (s : Store.State) (tz : Z) (q : ReqQuery) (m : Measurement) :
  In m (selected s (Validation.planned tz q))
  <-> In m (Store.documents s)
      /\ Store.in_range (Validation.range tz (start_date q) (end_date q))
           (timestamp m) = true.
Proof.
  unfold selected, Validation.planned. rewrite filter_In, matches_filter_document.
  reflexivity.
Qed.



(** The two bounds act independently: a record is selected by a request
    exactly when it is selected by the request without its start_date and
    by the request without its end_date. *)
Theorem bounds_compose (tz : Z) (q : ReqQuery) (s : Store.State) (m : Measurement) :
  In m (selected s (Validation.planned tz q))
  <-> In m (selected s (Validation.planned tz (without_start q)))
      /\ In m (selected s (Validation.planned tz (without_end q))).
Proof.
  rewrite !selected_iff.
  unfold Store.in_range, Validation.range.
  cbn [Store.gte Store.lte start_date end_date without_start without_end
       Validation.instant JS.truthy option_map].
  rewrite andb_true_iff, andb_true_r. cbn [andb]. tauto.
Qed.

Lemma bounds_compose_witness :
  In {| timestamp := 1735776000000; temperature := 20%R; humidity := 50%R;
        pressure := 1015%R |}
     (selected
        {| Store.documents :=
             [{| timestamp := 1735776000000; temperature := 20%R; humidity := 50%R;
                 pressure := 1015%R |}];
           Store.reachable := true |}
        (Validation.planned 0
           {| field := None; start_date := Some "2025-01-01";
              end_date := Some "2025-01-31" |})).
Proof.
  apply (proj2 (bounds_compose 0
                  {| field := None; start_date := Some "2025-01-01";
                     end_date := Some "2025-01-31" |}
                  {| Store.documents :=
                       [{| timestamp := 1735776000000; temperature := 20%R;
                           humidity := 50%R; pressure := 1015%R |}];
                     Store.reachable := true |}
                  {| timestamp := 1735776000000; temperature := 20%R; humidity := 50%R;
                     pressure := 1015%R |})).
  split; left; reflexivity.
Defined.

(** ** [GET /api/fields] against validation and the schema *)



(** ** The collection job *)

(** The job exits with 0 or with 1, and when it exits with 1 the store is
    as it was. *)
Theorem collector_failure_leaves_store (fetched : Collector.Fetched) (s : Store.State) :
  snd (Collector.fetchWeatherData fetched s) = 0
  \/ Collector.fetchWeatherData fetched s = (s, 1).
Proof.
  unfold Collector.fetchWeatherData.
  destruct fetched as [|data]; [right; reflexivity|].
  destruct (negb (Store.reachable s)); [right; reflexivity|].
  destruct (Collector.main data); [|right; reflexivity].
  destruct (Collector.create s _); [left | right]; reflexivity.
Qed.



Lemma collector_store (fetched : Collector.Fetched) (s : Store.State) :
  (Collector.fetchWeatherData fetched s = (s, 1))
  \/ exists m,
       Collector.fetchWeatherData fetched s
       = ({| Store.documents := Store.documents s ++ [m];
             Store.reachable := Store.reachable s |}, 0).
Proof.
  unfold Collector.fetchWeatherData.
  destruct fetched as [|data]; [left; reflexivity|].
  destruct (negb (Store.reachable s)); [left; reflexivity|].
  destruct (Collector.main data) as [mn|]; [|left; reflexivity].
  unfold Collector.create. destruct (Collector.validate _) as [doc|].
  - right. exists doc. reflexivity.
  - left. reflexivity.
Qed.

Lemma selected_all (s : Store.State) : selected s None = Store.documents s.
Proof.
  unfold selected. induction (Store.documents s) as [|m0 l IH]; [reflexivity|].
  simpl. rewrite IH. reflexivity.
Qed.

(** The job never removes or changes a stored record: whatever it
    fetched, every record a filter selected before it ran is selected
    after it, and the store is reachable after it exactly when it was
    before. *)
Theorem collector_keeps_records (fetched : Collector.Fetched) (s : Store.State)
    (f : Store.Filter) (m : Measurement) :
  (In m (selected s f) ->
   In m (selected (fst (Collector.fetchWeatherData fetched s)) f))
  /\ Store.reachable (fst (Collector.fetchWeatherData fetched s)) = Store.reachable s.
Proof.
  destruct (collector_store fetched s) as [-> | [m' ->]]; cbn [fst].
  - split; [tauto | reflexivity].
  - split; [|reflexivity]. unfold selected. cbn [Store.documents].
    rewrite !filter_In, in_app_iff. tauto.
Qed.

Lemma collector_keeps_records_witness :
  In {| timestamp := 0; temperature := 1%R; humidity := 2%R; pressure := 3%R |}
     (selected
        (fst (Collector.fetchWeatherData Collector.Rejected
                {| Store.documents :=
                     [{| timestamp := 0; temperature := 1%R; humidity := 2%R;
                         pressure := 3%R |}];
                   Store.reachable := true |}))
        None).
Proof.
  apply (proj1 (collector_keeps_records Collector.Rejected
                  {| Store.documents :=
                       [{| timestamp := 0; temperature := 1%R; humidity := 2%R;
                           pressure := 3%R |}];
                     Store.reachable := true |} None
                  {| timestamp := 0; temperature := 1%R; humidity := 2%R;
                     pressure := 3%R |})).
  left. reflexivity.
Defined.

(** After a run of the job that exits with 0, the list route without
    parameters answers 200 with the full records, the new one among them,
    in ascending order of timestamp, and the metrics route without bounds
    counts one record more than were stored before. *)
Theorem collected_record_is_served (tz : Z) (fetched : Collector.Fetched)
    (s s' : Store.State) (f : string) :
  Collector.fetchWeatherData fetched s = (s', 0) ->
  In f Server.VALID_FIELDS ->
  exists m rows,
    Store.documents s' = (Store.documents s ++ [m])%list
    /\ response (run s' (Server.get_measurements tz
                           {| field := None; start_date := None; end_date := None |}))
       = json (Measurements rows)
    /\ In m rows
    /\ Permutation rows (Store.documents s ++ [m])%list
    /\ Sorted by_timestamp rows
    /\ exists avg min max stdDev : R,
         response (run s' (Server.get_metrics tz
                             {| field := Some f; start_date := None; end_date := None |}))
         = json (MetricsBody f (S (List.length (Store.documents s)))
                   avg min max stdDev).
Proof.
  intros Hrun Hf.
  assert (Hup : Store.reachable s = true).
  { unfold Collector.fetchWeatherData in Hrun.
    destruct fetched; [discriminate|].
    destruct (Store.reachable s); [reflexivity | discriminate]. }
  destruct (collector_store fetched s) as [H1 | [m H1]]; rewrite H1 in Hrun;
    [discriminate|].
  injection Hrun as <-. rewrite Hup.
  set (s' := {| Store.documents := Store.documents s ++ [m]; Store.reachable := true |}).
  exists m, (Store.sort (Store.documents s ++ [m])%list).
  assert (Hne : (Store.documents s ++ [m])%list <> []).
  { intros H. apply app_eq_nil in H as [_ H]. discriminate. }
  split; [reflexivity|]. split; [|split; [|split; [|split]]].
  - rewrite list_accepted by reflexivity. unfold run, response.
    cbn [Store.reachable s']. rewrite find_selected.
    change (Validation.planned tz _) with (@None Store.DateFilter).
    rewrite selected_all. cbn [Store.documents s'].
    unfold Server.send_measurements. cbn [field JS.truthy].
    destruct (Store.sort (Store.documents s ++ [m])%list) eqn:Hsort; [|reflexivity].
    apply (proj1 (sort_nil_iff _)) in Hsort. contradiction.
  - apply (Permutation_in m (Permutation_sym (sort_perm _))).
    apply in_app_iff. right. left. reflexivity.
  - apply sort_perm.
  - apply sort_sorted.
  - assert (Hacc : Validation.rejected Server.ApiMetrics
                     {| field := Some f; start_date := None; end_date := None |} = false).
    { unfold Validation.rejected, Validation.field_rejected.
      cbn [field start_date end_date Server.text].
      apply includes_In in Hf. rewrite Hf.
      destruct f; [discriminate Hf | reflexivity]. }
    assert (Hsel : selected s' (Validation.planned tz
                     {| field := Some f; start_date := None; end_date := None |}) <> []).
    { change (Validation.planned tz _) with (@None Store.DateFilter).
      rewrite selected_all. exact Hne. }
    rewrite (metrics_answer tz _ s' Hacc eq_refl Hsel).
    change (Validation.planned tz _) with (@None Store.DateFilter).
    rewrite selected_all. cbn [Store.documents s' field Server.text].
    rewrite length_app, Nat.add_comm. cbn [List.length Nat.add].
    eexists _, _, _, _. reflexivity.
Qed.

Lemma collected_record_is_served_witness :
  exists m rows,
    [{| timestamp := 1735776000000; temperature := (-12)%R;
        humidity := 71%R; pressure := 1032%R |}]
    = ([] ++ [m])%list
    /\ response
         (run {| Store.documents :=
                   [{| timestamp := 1735776000000; temperature := (-12)%R;
                       humidity := 71%R; pressure := 1032%R |}];
                 Store.reachable := true |}
            (Server.get_measurements 0
               {| field := None; start_date := None; end_date := None |}))
       = json (Measurements rows)
    /\ In m rows
    /\ Permutation rows ([] ++ [m])%list
    /\ Sorted by_timestamp rows
    /\ exists avg min max stdDev : R,
         response
           (run {| Store.documents :=
                     [{| timestamp := 1735776000000; temperature := (-12)%R;
                         humidity := 71%R; pressure := 1032%R |}];
                   Store.reachable := true |}
              (Server.get_metrics 0
                 {| field := Some "humidity"; start_date := None; end_date := None |}))
         = json (MetricsBody "humidity" 1 avg min max stdDev).
Proof.
  refine (collected_record_is_served 0
            (Collector.Parsed
               {| Collector.dt := Collector.Number 1735776000;
                  Collector.main :=
                    Some {| Collector.temp := Collector.Number (-12)%R;
                            Collector.main_humidity := Collector.Number 71%R;
                            Collector.main_pressure := Collector.Number 1032%R |} |})
            {| Store.documents := []; Store.reachable := true |}
            {| Store.documents :=
                 [{| timestamp := 1735776000000; temperature := (-12)%R;
                     humidity := 71%R; pressure := 1032%R |}];
               Store.reachable := true |} "humidity" _ _).
  - reflexivity.
  - simpl. auto.
Defined.

(** ** [isValidDate] *)

Lemma regex_test_cons (a : JS.atom) (p : list JS.atom) (s : string) :
  JS.regex_test (a :: p) s = true ->
  exists c s', s = String c s' /\ JS.atom_matches a c = true
               /\ JS.regex_test p s' = true.
Proof.
  destruct s as [|c s']; simpl; [discriminate|].
  intros H. apply andb_true_iff in H as [H1 H2]. eauto.
Qed.

Lemma regex_test_nil (s : string) : JS.regex_test [] s = true -> s = EmptyString.
Proof. destruct s; [reflexivity | discriminate]. Qed.

Lemma digit_value_bounds (c : ascii) :
  JS.atom_matches JS.Digit c = true -> 0 <= JS.digit_value c <= 9.
Proof.
  unfold JS.atom_matches, JS.is_digit, JS.digit_value. intros H.
  apply andb_true_iff in H as [H1 H2].
  apply N.leb_le in H1. apply N.leb_le in H2. lia.
Qed.

(** The bounds on [DayFromYear] are checked year by year. *)
Lemma checked_from_spec (check : Z -> bool) (n : nat) (y0 y : Z) :
  checked_from n y0 check = true ->
  y0 <= y < y0 + Z.of_nat n -> check y = true.
Proof.
  revert y0. induction n as [|n IH]; intros y0 Hall Hy; [lia|].
  cbn [checked_from] in Hall. apply andb_true_iff in Hall as [H0 Hrest].
  destruct (Z.eq_dec y y0) as [-> | Hne]; [exact H0|].
  apply (IH (y0 + 1)); [exact Hrest | lia].
Qed.

Lemma DayFromYear_bounds (y : Z) :
  0 <= y <= 9999 -> -719528 <= JS.DayFromYear y <= 2932532.
Proof.
  intros Hy.
  assert (Hall : checked_from (Z.to_nat 10000) 0
                   (fun y => (-719528 <=? JS.DayFromYear y)
                             && (JS.DayFromYear y <=? 2932532)) = true)
    by (vm_compute; reflexivity).
  pose proof (checked_from_spec _ _ 0 y Hall) as H. cbv beta in H.
  rewrite Z2Nat.id in H by lia.
  apply andb_true_iff in H as [H1 H2]; [|lia]. apply Z.leb_le in H1, H2. lia.
Qed.

Lemma DayFromYear_below_9999 (y : Z) :
  0 <= y <= 9998 -> JS.DayFromYear y <= 2932167.
Proof.
  intros Hy.
  assert (Hall : checked_from (Z.to_nat 9999) 0
                   (fun y => JS.DayFromYear y <=? 2932167) = true)
    by (vm_compute; reflexivity).
  pose proof (checked_from_spec _ _ 0 y Hall) as H. cbv beta in H.
  rewrite Z2Nat.id in H by lia. apply Z.leb_le. apply H. lia.
Qed.

Lemma leap_day_bounds (y : Z) : 0 <= JS.DaysInYear y - 365 <= 1.
Proof.
  unfold JS.DaysInYear.
  destruct (negb (y mod 4 =? 0)); [lia|].
  destruct (negb (y mod 100 =? 0)); [lia|].
  destruct (negb (y mod 400 =? 0)); lia.
Qed.

Lemma MonthStart_bounds (leap mn : Z) :
  0 <= leap <= 1 -> 0 <= mn <= 11 ->
  0 <= JS.MonthStart leap mn <= 334 + leap.
Proof.
  intros Hl Hm.
  assert (H : mn = 0 \/ mn = 1 \/ mn = 2 \/ mn = 3 \/ mn = 4 \/ mn = 5 \/ mn = 6
              \/ mn = 7 \/ mn = 8 \/ mn = 9 \/ mn = 10 \/ mn = 11) by lia.
  repeat destruct H as [-> | H]; try subst mn;
    cbv beta iota delta [JS.MonthStart]; lia.
Qed.

(** A string that [isValidDate] accepts has exactly ten characters and
    denotes midnight UTC of a day from 0000-01-01 to 9999-12-31: the
    bounds sent to the store are always valid dates. *)
Theorem isValidDate_accepts (s : string) :
  Server.isValidDate s = true ->
  String.length s = 10%nat
  /\ exists d, JS.new_Date s = Some (d * JS.msPerDay)
               /\ -719528 <= d <= 2932896.
Proof.
  intros Hvalid. rewrite isValidDate_eq in Hvalid.
  apply andb_true_iff in Hvalid as [Hpat Hparse].
  unfold Validation.parses in Hparse. unfold Validation.matches_pattern in Hpat.
  pose proof Hpat as Hshape. unfold JS.iso_date_only in Hshape.
  destruct (regex_test_cons _ _ _ Hshape) as (y1 & r1 & -> & Hy1 & H1).
  destruct (regex_test_cons _ _ _ H1) as (y2 & r2 & -> & Hy2 & H2).
  destruct (regex_test_cons _ _ _ H2) as (y3 & r3 & -> & Hy3 & H3).
  destruct (regex_test_cons _ _ _ H3) as (y4 & r4 & -> & Hy4 & H4).
  destruct (regex_test_cons _ _ _ H4) as (c1 & r5 & -> & _ & H5).
  destruct (regex_test_cons _ _ _ H5) as (m1 & r6 & -> & Hm1 & H6).
  destruct (regex_test_cons _ _ _ H6) as (m2 & r7 & -> & Hm2 & H7).
  destruct (regex_test_cons _ _ _ H7) as (c2 & r8 & -> & _ & H8).
  destruct (regex_test_cons _ _ _ H8) as (d1 & r9 & -> & Hd1 & H9).
  destruct (regex_test_cons _ _ _ H9) as (d2 & r10 & -> & Hd2 & H10).
  apply regex_test_nil in H10. subst r10.
  split; [reflexivity|].
  unfold JS.new_Date in *. rewrite Hpat in *.
  cbn [substring JS.digits_value] in *.
  apply digit_value_bounds in Hy1, Hy2, Hy3, Hy4, Hm1, Hm2, Hd1, Hd2.
  set (y := 10 * (10 * (10 * (10 * 0 + JS.digit_value y1) + JS.digit_value y2)
                  + JS.digit_value y3) + JS.digit_value y4) in *.
  set (m := 10 * (10 * 0 + JS.digit_value m1) + JS.digit_value m2) in *.
  set (d := 10 * (10 * 0 + JS.digit_value d1) + JS.digit_value d2) in *.
  destruct ((1 <=? m) && (m <=? 12) && (1 <=? d) && (d <=? 31)) eqn:Hrange;
    [|discriminate].
  apply andb_true_iff in Hrange as [Hrange Hd31].
  apply andb_true_iff in Hrange as [Hrange Hd0].
  apply andb_true_iff in Hrange as [Hm0 Hm12].
  apply Z.leb_le in Hd31, Hd0, Hm0, Hm12.
  exists (JS.MakeDay y (m - 1) d).
  split; [unfold JS.MakeDate; rewrite Z.add_0_r; reflexivity|].
  assert (Hy : 0 <= y <= 9999) by (subst y; lia).
  clearbody y m d. unfold JS.MakeDay.
  replace ((m - 1) / 12) with 0 by (symmetry; apply Z.div_small; lia).
  rewrite Z.mod_small by lia. rewrite Z.add_0_r.
  pose proof (leap_day_bounds y) as Hleap.
  pose proof (MonthStart_bounds (JS.DaysInYear y - 365) (m - 1) Hleap
                ltac:(lia)) as Hms.
  pose proof (DayFromYear_bounds y Hy) as Hdy.
  split; [lia|].
  assert (Hcase : y <= 9998 \/ y = 9999) by lia.
  destruct Hcase as [Hlt | Heq].
  - pose proof (DayFromYear_below_9999 y ltac:(lia)). lia.
  - subst y. change (JS.DaysInYear 9999 - 365) with 0 in Hms.
    change (JS.DaysInYear 9999 - 365) with 0. lia.
Qed.

Lemma isValidDate_accepts_witness :
  String.length "2024-02-29" = 10%nat
  /\ exists d, JS.new_Date "2024-02-29" = Some (d * JS.msPerDay)
               /\ -719528 <= d <= 2932896.
Proof.
  apply isValidDate_accepts. vm_compute. reflexivity.
Defined.

(** ** Metrics over a single record *)


